(** * Verification of the Python bindings of the Trust Spanning Protocol (TSP)

    The Python module [tsp_python/tsp.py] wraps the native store
    [tsp_python.Store]: every method of [SecureStore] runs the native call
    inside the [Wallet] context manager (load the wallet, run the body,
    flush the wallet), and [ReceivedTspMessage.from_flat] turns the flat
    native result into one of the message dataclasses.

    The native store is generic here (the class [Inner.TspStore]) where a
    property holds for any native behaviour; where a property depends on
    the cryptographic engine, we use a symbolic model of it built from
    the specification (section "Modelled from the spec" below). *)

From Stdlib Require Import Ascii String List Wf_nat.
From stdpp Require Import base gmap strings list pretty.
Import ListNotations.
Open Scope string_scope.

(* ------------------------------------------------------------------ *)
(** ** Basic data *)

(** Python [bytes]. *)
Definition bytes := list Byte.byte.

Inductive CryptoType := Plaintext | HpkeAuth | HpkeEssr | NaclAuth | NaclEssr.
Inductive SignatureType := NoSignature | Ed25519.

(** The variants of the native enum [ReceivedTspMessageVariant]; the
    Python [match] in [from_flat] also has a [case other] arm, reached by
    any value outside the six known ones: [Other repr]. *)
Module ReceivedTspMessageVariant.
Inductive t :=
| GenericMessage
| RequestRelationship
| AcceptRelationship
| CancelRelationship
| ForwardRequest
| PendingMessage
| Other (repr : string).
End ReceivedTspMessageVariant.

(** Errors raised to the Python caller. *)
Inductive TspError :=
| UnknownRecipient | UnknownIdentifier | NotFound | DuplicateIdentifier
| ResolutionError | ValidationError | SignatureInvalid | DecryptionFailed
| UnknownVariant | MalformedRoute | Unsupported | WalletError.

Inductive PyExc :=
| ValueError (msg : string)
| TypeError (msg : string)
| TspException (e : TspError).

(** Result of a Python call: a value or a raised exception. *)
Inductive Res (A : Type) :=
| Ok (a : A)
| Raise (e : PyExc).
Arguments Ok {A} a.
Arguments Raise {A} e.

Definition res_bind {A B} (r : Res A) (f : A -> Res B) : Res B :=
  match r with Ok a => f a | Raise e => Raise e end.

(** Sealed messages.  The wire encoding is not part of the code under
    study; a sealed message is represented by its symbolic envelope.

    Modelled from the spec: the envelope of the (native) sealing engine:
    signed by [env_sender], encrypted to [env_receiver], carrying the
    nonconfidential data in clear and a control payload; a routed payload
    holds the remaining hops and the still-sealed inner envelope
    ("recursively-typed opaque envelope", spec section 9). *)
Module Wire.
Inductive Payload :=
| Content (m : bytes)
| RequestRelationship (thread_id : bytes) (route : option (list string))
    (nested_vid : option string)
| AcceptRelationship (thread_id : bytes) (nested_vid : option string)
| CancelRelationship (thread_id : bytes)
| RoutedMessage (hops : list string) (inner : Envelope)
| NestedMessage (inner : Envelope)
with Envelope :=
| Seal (env_sender env_receiver : string)
    (env_nonconfidential : option bytes)
    (env_crypto : CryptoType) (env_signature : SignatureType)
    (env_payload : Payload).
End Wire.
Abbreviation Envelope := Wire.Envelope.

(** [OwnedVid]: an identifier together with its (private) key material. *)
Record OwnedVid := mkOwnedVid {
  identifier : string;
  ov_endpoint : string
}.

Definition Metadata := list (string * string).

(** [tsp_python.FlatReceivedTspMessage]: the flat native result. *)
Record FlatReceivedTspMessage := mkFlat {
  variant : ReceivedTspMessageVariant.t;
  sender : string;
  receiver : option string;
  nonconfidential_data : option bytes;
  message : option bytes;
  crypto_type : option CryptoType;
  signature_type : option SignatureType;
  route : option (list string);
  nested_vid : option string;
  thread_id : option bytes;
  next_hop : option string;
  opaque_payload : option Envelope
}.

(** The dataclasses of [tsp.py] deriving from [ReceivedTspMessage]. *)
Inductive ReceivedTspMessage :=
| GenericMessage (sender : string) (receiver : option string)
    (nonconfidential_data : option bytes) (message : bytes)
    (crypto_type : option CryptoType) (signature_type : option SignatureType)
| RequestRelationship (sender : string) (receiver : option string)
    (route : option (list string)) (nested_vid : option string)
    (thread_id : option bytes)
| AcceptRelationship (sender : string) (receiver : option string)
    (nested_vid : option string)
| CancelRelationship (sender : string) (receiver : option string)
| ForwardRequest (sender : string) (receiver : option string)
    (next_hop : option string) (route : option (list string))
    (opaque_payload : option Envelope).

(** [ReceivedTspMessage.from_flat].  [bytes(msg.message)] raises a
    [TypeError] on [None]. *)
Definition from_flat (msg : FlatReceivedTspMessage) : Res ReceivedTspMessage :=
  match variant msg with
  | ReceivedTspMessageVariant.GenericMessage =>
      match message msg with
      | Some m =>
          Ok (GenericMessage (sender msg) (receiver msg)
                (nonconfidential_data msg) m
                (crypto_type msg) (signature_type msg))
      | None => Raise (TypeError "cannot convert 'NoneType' object to bytes")
      end
  | ReceivedTspMessageVariant.RequestRelationship =>
      Ok (RequestRelationship (sender msg) (receiver msg) (route msg)
            (nested_vid msg) (thread_id msg))
  | ReceivedTspMessageVariant.AcceptRelationship =>
      Ok (AcceptRelationship (sender msg) (receiver msg) (nested_vid msg))
  | ReceivedTspMessageVariant.CancelRelationship =>
      Ok (CancelRelationship (sender msg) (receiver msg))
  | ReceivedTspMessageVariant.ForwardRequest =>
      Ok (ForwardRequest (sender msg) (receiver msg) (next_hop msg)
            (route msg) (opaque_payload msg))
  | ReceivedTspMessageVariant.PendingMessage =>
      Raise (ValueError "todo!")
  | ReceivedTspMessageVariant.Other other =>
      Raise (ValueError ("Unrecognized variant: " ++ other))
  end.

(* ------------------------------------------------------------------ *)
(** ** The native store, as seen from Python *)

Module Inner.
(** The methods of [tsp_python.Store] called by [tsp.py]; each is a
    fallible state transformer on the native store state [S]. *)
Class TspStore (S : Type) := {
  read_wallet : S -> S * Res unit;
  write_wallet : S -> S * Res unit;
  store_kv : string -> bytes -> S -> S * Res unit;
  get_kv : string -> S -> S * Res bytes;
  remove_kv : string -> S -> S * Res unit;
  verify_vid : string -> option string -> S -> S * Res string;
  add_private_vid : OwnedVid -> option string -> option Metadata -> S -> S * Res unit;
  forget_vid : string -> S -> S * Res unit;
  resolve_alias : string -> S -> S * Res (option string);
  add_verified_owned_vid : OwnedVid -> option string -> option Metadata -> S -> S * Res unit;
  set_route_for_vid : string -> list string -> S -> S * Res unit;
  seal_message : string -> string -> bytes -> option bytes -> S -> S * Res (string * Envelope);
  open_message : Envelope -> S -> S * Res FlatReceivedTspMessage;
  send : string -> string -> bytes -> S -> S * Res unit;
  receive : string -> S -> S * Res (option FlatReceivedTspMessage);
  get_sender_receiver : Envelope -> S -> S * Res (string * string);
  make_relationship_request : string -> string -> option (list string) -> S -> S * Res (string * Envelope);
  make_relationship_accept : string -> string -> bytes -> option (list string) -> S -> S * Res (string * Envelope);
  make_relationship_cancel : string -> string -> S -> S * Res (string * Envelope);
  make_nested_relationship_request : string -> string -> S -> S * Res ((string * Envelope) * OwnedVid);
  make_nested_relationship_accept : string -> string -> bytes -> S -> S * Res ((string * Envelope) * OwnedVid);
  forward_routed_message : string -> list string -> Envelope -> S -> S * Res (string * Envelope)
}.
End Inner.

(** Calls made by [tsp.py] to the native store, in order. *)
Inductive Call := CallRead | CallWrite | CallInner (method : string).

(** A Python method of [SecureStore]: state passing, the log of native
    calls, and a value or exception. *)
Definition M (S A : Type) := S -> S * list Call * Res A.

Module SecureStore.
Section Methods.
Context {S : Type} `{Inner.TspStore S}.

(** One native call, logged under its name. *)
Definition call {A} (name : Call) (f : S -> S * Res A) : M S A :=
  fun s => let '(s', r) := f s in (s', [name], r).

(** A native call followed by the Python code run on its result. *)
Definition call_then {A B} (name : string) (f : S -> S * Res A)
    (k : A -> Res B) : M S B :=
  fun s => let '(s', r) := f s in (s', [CallInner name], res_bind r k).

(** A native call whose result is returned as it is. *)
Definition call_inner {A} (name : string) (f : S -> S * Res A) : M S A :=
  call_then name f Ok.

(** [with Wallet(self): body]: [__enter__] calls [read_wallet]; if it
    raises, the body does not run and [__exit__] is not called.
    Otherwise the body runs and [__exit__] calls [write_wallet] whatever
    the body did; [__exit__] returns [None], so an exception of the
    body propagates, unless [write_wallet] itself raises. *)
Definition with_wallet {A} (body : M S A) : M S A :=
  fun s =>
    match call CallRead Inner.read_wallet s with
    | (s1, t1, Raise e) => (s1, t1, Raise e)
    | (s1, t1, Ok _) =>
        let '(s2, t2, r) := body s1 in
        match call CallWrite Inner.write_wallet s2 with
        | (s3, t3, Raise e) => (s3, (t1 ++ t2 ++ t3)%list, Raise e)
        | (s3, t3, Ok _) => (s3, (t1 ++ t2 ++ t3)%list, r)
        end
    end.

(** The methods of [class SecureStore]. *)
Definition store_kv (key : string) (value : bytes) : M S unit :=
  with_wallet (call_inner "store_kv" (Inner.store_kv key value)).

Definition get_kv (key : string) : M S bytes :=
  with_wallet (call_inner "get_kv" (Inner.get_kv key)).

Definition remove_kv (key : string) : M S unit :=
  with_wallet (call_inner "remove_kv" (Inner.remove_kv key)).

Definition verify_vid (did : string) (alias : option string) : M S string :=
  with_wallet (call_inner "verify_vid" (Inner.verify_vid did alias)).

Definition add_private_vid (vid : OwnedVid) (alias : option string)
    (metadata : option Metadata) : M S unit :=
  with_wallet (call_inner "add_private_vid" (Inner.add_private_vid vid alias metadata)).

Definition forget_vid (vid : string) : M S unit :=
  with_wallet (call_inner "forget_vid" (Inner.forget_vid vid)).

Definition resolve_alias (alias : string) : M S (option string) :=
  with_wallet (call_inner "resolve_alias" (Inner.resolve_alias alias)).

Definition add_verified_owned_vid (vid : OwnedVid) (alias : option string)
    (metadata : option Metadata) : M S unit :=
  with_wallet (call_inner "add_verified_owned_vid"
                 (Inner.add_verified_owned_vid vid alias metadata)).

Definition set_route_for_vid (vid : string) (route : list string) : M S unit :=
  with_wallet (call_inner "set_route_for_vid" (Inner.set_route_for_vid vid route)).

(** [self.inner.seal_message(sender, receiver, message)]: the native
    [nonconfidential_data] argument keeps its default [None]. *)
Definition seal_message (sender receiver : string) (message : bytes)
    : M S (string * Envelope) :=
  with_wallet (call_inner "seal_message"
                 (Inner.seal_message sender receiver message None)).

Definition open_message (message : Envelope) : M S ReceivedTspMessage :=
  with_wallet (call_then "open_message" (Inner.open_message message) from_flat).

Definition send (sender receiver : string) (message : bytes) : M S unit :=
  with_wallet (call_inner "send" (Inner.send sender receiver message)).

(** [None if message is None else ReceivedTspMessage.from_flat(message)] *)
Definition receive_result (message : option FlatReceivedTspMessage)
    : Res (option ReceivedTspMessage) :=
  match message with
  | None => Ok None
  | Some m => res_bind (from_flat m) (fun r => Ok (Some r))
  end.

Definition receive (vid : string) : M S (option ReceivedTspMessage) :=
  with_wallet (call_then "receive" (Inner.receive vid) receive_result).

Definition get_sender_receiver (message : Envelope) : M S (string * string) :=
  with_wallet (call_inner "get_sender_receiver" (Inner.get_sender_receiver message)).

Definition make_relationship_request (sender receiver : string)
    (route : option (list string)) : M S (string * Envelope) :=
  with_wallet (call_inner "make_relationship_request"
                 (Inner.make_relationship_request sender receiver route)).

Definition make_relationship_accept (sender receiver : string)
    (thread_id : bytes) (route : option (list string)) : M S (string * Envelope) :=
  with_wallet (call_inner "make_relationship_accept"
                 (Inner.make_relationship_accept sender receiver thread_id route)).

Definition make_relationship_cancel (sender receiver : string)
    : M S (string * Envelope) :=
  with_wallet (call_inner "make_relationship_cancel"
                 (Inner.make_relationship_cancel sender receiver)).

Definition make_nested_relationship_request (parent_sender receiver : string)
    : M S ((string * Envelope) * OwnedVid) :=
  with_wallet (call_inner "make_nested_relationship_request"
                 (Inner.make_nested_relationship_request parent_sender receiver)).

Definition make_nested_relationship_accept (sender receiver : string)
    (thread_id : bytes) : M S ((string * Envelope) * OwnedVid) :=
  with_wallet (call_inner "make_nested_relationship_accept"
                 (Inner.make_nested_relationship_accept sender receiver thread_id)).

Definition forward_routed_message (next_hop : string) (route : list string)
    (opaque_payload : Envelope) : M S (string * Envelope) :=
  with_wallet (call_inner "forward_routed_message"
                 (Inner.forward_routed_message next_hop route opaque_payload)).
End Methods.
End SecureStore.

(* ------------------------------------------------------------------ *)
(** ** Modelled from the spec: the native store [tsp_python.Store]

    Modelled from the spec: the identifier and key store, the sealing
    engine, the opening/dispatch engine, the relationship operations and
    the forwarding engine of the native library (spec sections 3 and 4),
    which are not part of the Python sources.  Cryptography is symbolic:
    a message sealed to [r] opens only in a store holding the private
    key material of [r] (a [Private] record), and its signature checks
    only in a store that knows the sender.  Fresh thread ids come from a
    counter; fresh nested identifiers are chosen outside the identifiers
    of the store.  Where the spec leaves a detail open, the tests of
    [tsp_python/test.py] decide it (the drop-off of a routed message is
    sealed by the last hop to the VID it is related to). *)
Module Model.

Inductive Role := Private | Verified.

Inductive RelationshipStatus :=
| Unrelated
| Requested (thread : bytes)
| Established (thread : bytes)
| Cancelled.

(** A VID record of the store. *)
Record VidRec := mkVidRec {
  vr_id : string;
  vr_endpoint : string;
  vr_role : Role;
  vr_route : option (list string);
  vr_relation : option string;
  vr_status : RelationshipStatus;
  vr_parent : option string;
  vr_metadata : option Metadata
}.

Definition set_route (route : option (list string)) (r : VidRec) : VidRec :=
  mkVidRec (vr_id r) (vr_endpoint r) (vr_role r) route (vr_relation r)
    (vr_status r) (vr_parent r) (vr_metadata r).

Definition set_relation (rel : option string) (st : RelationshipStatus)
    (r : VidRec) : VidRec :=
  mkVidRec (vr_id r) (vr_endpoint r) (vr_role r) (vr_route r) rel st
    (vr_parent r) (vr_metadata r).

(** The in-memory store (the contents of the wallet). *)
Record Mem := mkMem {
  vids : gmap string VidRec;
  aliases : gmap string string;
  kv : gmap string bytes;
  counter : nat
}.

Definition set_vids (v : gmap string VidRec) (m : Mem) : Mem :=
  mkMem v (aliases m) (kv m) (counter m).
Definition set_aliases (a : gmap string string) (m : Mem) : Mem :=
  mkMem (vids m) a (kv m) (counter m).
Definition set_kv (k : gmap string bytes) (m : Mem) : Mem :=
  mkMem (vids m) (aliases m) k (counter m).
Definition bump (m : Mem) : Mem :=
  mkMem (vids m) (aliases m) (kv m) (S (counter m)).

Definition update_vid (v : string) (f : VidRec -> VidRec) (m : Mem) : Mem :=
  match vids m !! v with
  | Some r => set_vids (<[v := f r]> (vids m)) m
  | None => m
  end.

Definition empty_mem : Mem := mkMem ∅ ∅ ∅ 0.

(** The native store: memory, the persisted wallet ([None]: the wallet
    cannot be read), and the external collaborators: the DID resolver,
    the messages waiting for each VID, the messages handed to the
    transport. *)
Record St := mkSt {
  mem : Mem;
  disk : option Mem;
  resolver : gmap string string;
  incoming : gmap string (list Envelope);
  outbox : list (string * Envelope)
}.

Definition set_mem (m : Mem) (s : St) : St :=
  mkSt m (disk s) (resolver s) (incoming s) (outbox s).

Definition terr {A} (e : TspError) : Res A := Raise (TspException e).

Definition is_private (m : Mem) (v : string) : bool :=
  match vids m !! v with
  | Some r => match vr_role r with Private => true | Verified => false end
  | None => false
  end.

(** The role of a VID as the spec names it: a VID with a route is
    Nested, whatever its keys. *)
Inductive VidKind := KPrivate | KVerified | KNested.

Definition vid_kind (m : Mem) (v : string) : option VidKind :=
  match vids m !! v with
  | None => None
  | Some r =>
      Some match vr_route r with
           | Some _ => KNested
           | None => match vr_role r with Private => KPrivate | Verified => KVerified end
           end
  end.

Definition knows (m : Mem) (v : string) : bool :=
  match vids m !! v with Some _ => true | None => false end.

Definition endpoint_of (m : Mem) (v : string) : string :=
  match vids m !! v with Some r => vr_endpoint r | None => "" end.

Definition route_of (m : Mem) (v : string) : option (list string) :=
  match vids m !! v with Some r => vr_route r | None => None end.

Definition relation_of (m : Mem) (v : string) : option string :=
  match vids m !! v with Some r => vr_relation r | None => None end.

(** Thread ids: the value of the counter, printed. *)
Definition thread_of (n : nat) : bytes :=
  String.list_byte_of_string ("thread-" ++ pretty n).

(** A fresh identifier: none of the store's VIDs. *)
Definition fresh_vid (m : Mem) : string := fresh (dom (vids m) : gset string).

(** [crypto::seal]: needs the sender's private key and the receiver's
    public key. *)
Definition seal_env (m : Mem) (snd rcv : string) (nonconf : option bytes)
    (p : Wire.Payload) : Res Envelope :=
  if is_private m snd then
    if knows m rcv then Ok (Wire.Seal snd rcv nonconf HpkeAuth Ed25519 p)
    else terr UnknownRecipient
  else terr UnknownIdentifier.

(** Sealing toward a VID, wrapping for the first hop of its route when
    it has one. *)
Definition seal_message_payload (m : Mem) (snd rcv : string)
    (nonconf : option bytes) (p : Wire.Payload) : Res (string * Envelope) :=
  match vids m !! rcv with
  | None => terr UnknownRecipient
  | Some rr =>
      match vr_route rr with
      | None =>
          res_bind (seal_env m snd rcv nonconf p) (fun e => Ok (vr_endpoint rr, e))
      | Some [] => terr MalformedRoute
      | Some (hop :: hops) =>
          res_bind (seal_env m snd rcv nonconf p) (fun inner =>
          match vids m !! hop with
          | None => terr UnknownRecipient
          | Some hr =>
              match vr_relation hr with
              | None => terr UnknownIdentifier
              | Some outer =>
                  res_bind (seal_env m outer hop None (Wire.RoutedMessage hops inner))
                    (fun e => Ok (vr_endpoint hr, e))
              end
          end)
      end
  end.

(** A nested VID disclosed in a handshake is registered with its public
    key material, under the party that disclosed it. *)
Definition register_nested (nv : option string) (parent : string)
    (relation : option string) (m : Mem) : Mem :=
  match nv with
  | Some n =>
      set_vids (<[n := mkVidRec n "" Verified None relation Unrelated
                         (Some parent) None]> (vids m)) m
  | None => m
  end.

(** [crypto::open] and the classification of the control payload. *)
Fixpoint open_env (m : Mem) (e : Envelope) : Res (Mem * FlatReceivedTspMessage) :=
  match e with
  | Wire.Seal s r nc ct sg p =>
      if negb (knows m s) then terr SignatureInvalid
      else if negb (is_private m r) then terr DecryptionFailed
      else
        match p with
        | Wire.Content msg =>
            Ok (m, mkFlat ReceivedTspMessageVariant.GenericMessage s (Some r) nc
                     (Some msg) (Some ct) (Some sg) None None None None None)
        | Wire.RequestRelationship th rt nv =>
            let m' := match nv with
                      | None => update_vid s (set_relation (Some r) (Requested th)) m
                      | Some _ => register_nested nv s None m
                      end in
            Ok (m', mkFlat ReceivedTspMessageVariant.RequestRelationship s (Some r)
                      None None None None rt nv (Some th) None None)
        | Wire.AcceptRelationship th nv =>
            let m' := match nv with
                      | None => update_vid s (set_relation (Some r) (Established th)) m
                      | Some _ => register_nested nv s (Some r) m
                      end in
            Ok (m', mkFlat ReceivedTspMessageVariant.AcceptRelationship s (Some r)
                      None None None None None nv None None None)
        | Wire.CancelRelationship _ =>
            Ok (update_vid s (set_relation (Some r) Cancelled) m,
                mkFlat ReceivedTspMessageVariant.CancelRelationship s (Some r)
                  None None None None None None None None None)
        | Wire.RoutedMessage hops inner =>
            match hops with
            | h :: rest =>
                Ok (m, mkFlat ReceivedTspMessageVariant.ForwardRequest s (Some r)
                         None None None None (Some rest) None None (Some h) (Some inner))
            | [] => terr MalformedRoute
            end
        | Wire.NestedMessage inner => open_env m inner
        end
  end.

(** Running a function of the memory on the store. *)
Definition on_mem {A} (f : Mem -> Res (Mem * A)) (s : St) : St * Res A :=
  match f (mem s) with
  | Ok (m', a) => (set_mem m' s, Ok a)
  | Raise e => (s, Raise e)
  end.

Definition query {A} (f : Mem -> Res A) : St -> St * Res A :=
  on_mem (fun m => res_bind (f m) (fun a => Ok (m, a))).

Definition read_wallet (s : St) : St * Res unit :=
  match disk s with
  | Some d => (set_mem d s, Ok tt)
  | None => (s, terr WalletError)
  end.

Definition write_wallet (s : St) : St * Res unit :=
  (mkSt (mem s) (Some (mem s)) (resolver s) (incoming s) (outbox s), Ok tt).

Definition store_kv (key : string) (value : bytes) : St -> St * Res unit :=
  on_mem (fun m => Ok (set_kv (<[key := value]> (kv m)) m, tt)).

Definition get_kv (key : string) : St -> St * Res bytes :=
  query (fun m => match kv m !! key with Some v => Ok v | None => terr NotFound end).

Definition remove_kv (key : string) : St -> St * Res unit :=
  on_mem (fun m => Ok (set_kv (delete key (kv m)) m, tt)).

Definition role_eqb (a b : Role) : bool :=
  match a, b with
  | Private, Private | Verified, Verified => true
  | _, _ => false
  end.

Definition add_alias (alias : option string) (v : string) (m : Mem) : Mem :=
  match alias with
  | Some a => set_aliases (<[a := v]> (aliases m)) m
  | None => m
  end.

(** Registering a VID; an identifier already present with the other
    role is a [DuplicateIdentifier]. *)
Definition add_vid (role : Role) (vid : OwnedVid) (alias : option string)
    (metadata : option Metadata) (m : Mem) : Res (Mem * unit) :=
  let id := identifier vid in
  let conflict := match vids m !! id with
                  | Some r => negb (role_eqb (vr_role r) role)
                  | None => false
                  end in
  if conflict then terr DuplicateIdentifier
  else Ok (add_alias alias id
             (set_vids (<[id := mkVidRec id (ov_endpoint vid) role None None
                                  Unrelated None metadata]> (vids m)) m), tt).

Definition add_private_vid (vid : OwnedVid) (alias : option string)
    (metadata : option Metadata) : St -> St * Res unit :=
  on_mem (add_vid Private vid alias metadata).

Definition add_verified_owned_vid (vid : OwnedVid) (alias : option string)
    (metadata : option Metadata) : St -> St * Res unit :=
  on_mem (add_vid Verified vid alias metadata).

Definition verify_vid (did : string) (alias : option string) (s : St)
    : St * Res string :=
  match resolver s !! did with
  | None => (s, terr ResolutionError)
  | Some ep =>
      on_mem (fun m => res_bind (add_vid Verified (mkOwnedVid did ep) alias None m)
                         (fun '(m', _) => Ok (m', ep))) s
  end.

Definition forget_vid (vid : string) : St -> St * Res unit :=
  on_mem (fun m =>
    if knows m vid then
      Ok (set_aliases (filter (fun '(_, v) => v <> vid) (aliases m))
            (set_vids (delete vid (vids m)) m), tt)
    else terr NotFound).

Definition resolve_alias (alias : string) : St -> St * Res (option string) :=
  query (fun m => Ok (aliases m !! alias)).

Definition set_route_for_vid (vid : string) (route : list string)
    : St -> St * Res unit :=
  on_mem (fun m =>
    if knows m vid then Ok (update_vid vid (set_route (Some route)) m, tt)
    else terr UnknownIdentifier).

Definition seal_message (snd rcv : string) (message : bytes)
    (nonconfidential_data : option bytes) : St -> St * Res (string * Envelope) :=
  query (fun m => seal_message_payload m snd rcv nonconfidential_data
                    (Wire.Content message)).

Definition open_message (e : Envelope) : St -> St * Res FlatReceivedTspMessage :=
  on_mem (fun m => open_env m e).

(** Sealing, then handing the message to the transport. *)
Definition send (snd rcv : string) (message : bytes) (s : St) : St * Res unit :=
  match seal_message snd rcv message None s with
  | (s', Ok (ep, e)) =>
      (mkSt (mem s') (disk s') (resolver s') (incoming s') ((ep, e) :: outbox s'), Ok tt)
  | (s', Raise x) => (s', Raise x)
  end.

(** The next message waiting for a private VID, opened; [None] when
    there is none. *)
Definition receive (vid : string) (s : St) : St * Res (option FlatReceivedTspMessage) :=
  if negb (is_private (mem s) vid) then (s, terr UnknownIdentifier)
  else
    match incoming s !! vid with
    | Some (e :: rest) =>
        let s1 := mkSt (mem s) (disk s) (resolver s)
                    (<[vid := rest]> (incoming s)) (outbox s) in
        match open_env (mem s1) e with
        | Ok (m', f) => (set_mem m' s1, Ok (Some f))
        | Raise x => (s1, Raise x)
        end
    | _ => (s, Ok None)
    end.

Definition get_sender_receiver (e : Envelope) (s : St) : St * Res (string * string) :=
  match e with Wire.Seal snd rcv _ _ _ _ => (s, Ok (snd, rcv)) end.

Definition make_relationship_request (snd rcv : string)
    (route : option (list string)) : St -> St * Res (string * Envelope) :=
  on_mem (fun m =>
    let th := thread_of (counter m) in
    res_bind (seal_message_payload m snd rcv None (Wire.RequestRelationship th route None))
      (fun res => Ok (update_vid rcv (set_relation (Some snd) (Requested th)) (bump m), res))).

Definition make_relationship_accept (snd rcv : string) (thread_id : bytes)
    (route : option (list string)) : St -> St * Res (string * Envelope) :=
  on_mem (fun m =>
    res_bind (seal_message_payload m snd rcv None (Wire.AcceptRelationship thread_id None))
      (fun res => Ok (update_vid rcv (set_relation (Some snd) (Established thread_id)) m, res))).

Definition make_relationship_cancel (snd rcv : string)
    : St -> St * Res (string * Envelope) :=
  on_mem (fun m =>
    match vids m !! rcv with
    | None => terr UnknownRecipient
    | Some r =>
        match vr_status r with
        | Requested th | Established th =>
            res_bind (seal_message_payload m snd rcv None (Wire.CancelRelationship th))
              (fun res => Ok (update_vid rcv (set_relation (vr_relation r) Cancelled) m, res))
        | _ => terr NotFound
        end
    end).

(** Minting a private nested VID under [parent]. *)
Definition mint_nested (parent : string) (relation : option string) (m : Mem)
    : Mem * OwnedVid :=
  let n := fresh_vid m in
  let ep := match vids m !! parent with Some r => vr_endpoint r | None => "" end in
  (set_vids (<[n := mkVidRec n ep Private None relation Unrelated (Some parent) None]>
               (vids m)) m,
   mkOwnedVid n ep).

Definition make_nested_relationship_request (parent rcv : string)
    : St -> St * Res ((string * Envelope) * OwnedVid) :=
  on_mem (fun m =>
    if negb (is_private m parent) then terr UnknownIdentifier
    else
      let th := thread_of (counter m) in
      let '(m1, nv) := mint_nested parent None (bump m) in
      res_bind (seal_message_payload m1 parent rcv None
                  (Wire.RequestRelationship th None (Some (identifier nv))))
        (fun res => Ok (update_vid rcv (set_relation (Some parent) (Requested th)) m1,
                        (res, nv)))).

Definition make_nested_relationship_accept (snd rcv : string) (thread_id : bytes)
    : St -> St * Res ((string * Envelope) * OwnedVid) :=
  on_mem (fun m =>
    if negb (is_private m snd) then terr UnknownIdentifier
    else
      let '(m1, nv) := mint_nested snd (Some rcv) m in
      res_bind (seal_message_payload m1 snd rcv None
                  (Wire.AcceptRelationship thread_id (Some (identifier nv))))
        (fun res => Ok (update_vid rcv (set_relation (Some (identifier nv))
                                          (Established thread_id)) m1,
                        (res, nv)))).

(** Forwarding: toward a further hop, sealed by the VID related to
    [next_hop]; at the end of the route ([route = []]), the drop-off:
    [next_hop] seals the payload as a nested message to the VID it is
    related to. *)
Definition forward_routed_message (next_hop : string) (route : list string)
    (opaque_payload : Envelope) : St -> St * Res (string * Envelope) :=
  query (fun m =>
    match vids m !! next_hop with
    | None => terr UnknownRecipient
    | Some hr =>
        match vr_relation hr with
        | None => terr UnknownIdentifier
        | Some other =>
            match route with
            | [] =>
                match vids m !! other with
                | None => terr UnknownRecipient
                | Some orr =>
                    res_bind (seal_env m next_hop other None (Wire.NestedMessage opaque_payload))
                      (fun e => Ok (vr_endpoint orr, e))
                end
            | _ :: _ =>
                res_bind (seal_env m other next_hop None (Wire.RoutedMessage route opaque_payload))
                  (fun e => Ok (vr_endpoint hr, e))
            end
        end
    end).

#[global] Instance native : Inner.TspStore St := {
  Inner.read_wallet := read_wallet;
  Inner.write_wallet := write_wallet;
  Inner.store_kv := store_kv;
  Inner.get_kv := get_kv;
  Inner.remove_kv := remove_kv;
  Inner.verify_vid := verify_vid;
  Inner.add_private_vid := add_private_vid;
  Inner.forget_vid := forget_vid;
  Inner.resolve_alias := resolve_alias;
  Inner.add_verified_owned_vid := add_verified_owned_vid;
  Inner.set_route_for_vid := set_route_for_vid;
  Inner.seal_message := seal_message;
  Inner.open_message := open_message;
  Inner.send := send;
  Inner.receive := receive;
  Inner.get_sender_receiver := get_sender_receiver;
  Inner.make_relationship_request := make_relationship_request;
  Inner.make_relationship_accept := make_relationship_accept;
  Inner.make_relationship_cancel := make_relationship_cancel;
  Inner.make_nested_relationship_request := make_nested_relationship_request;
  Inner.make_nested_relationship_accept := make_nested_relationship_accept;
  Inner.forward_routed_message := forward_routed_message
}.

(** A new store over an empty wallet. *)
Definition new_store : St := mkSt empty_mem (Some empty_mem) ∅ ∅ [].

(** The store after a flush of memory [d]. *)
Definition flushed (d : Mem) (s : St) : St :=
  mkSt d (Some d) (resolver s) (incoming s) (outbox s).

(** Record updates that keep the key material, role, route and
    endpoint of a VID. *)
Definition keeps_keys (f : VidRec -> VidRec) : Prop :=
  forall r, vr_role (f r) = vr_role r /\ vr_route (f r) = vr_route r /\
            vr_endpoint (f r) = vr_endpoint r.
End Model.

(* ------------------------------------------------------------------ *)
(** ** A native store answering with fixed results

    Used to run the Python layer on native results that the model of the
    spec never produces ([PendingMessage], unknown variants), and to
    observe the arguments the Python layer passes to the native store. *)
Module Double.
Definition unsupported {A} (s : unit) : unit * Res A :=
  (s, Raise (TspException Unsupported)).

Definition answering (opened : FlatReceivedTspMessage)
    (waiting : option FlatReceivedTspMessage) : Inner.TspStore unit := {|
  Inner.read_wallet := fun s => (s, Ok tt);
  Inner.write_wallet := fun s => (s, Ok tt);
  Inner.store_kv := fun _ _ => unsupported;
  Inner.get_kv := fun _ => unsupported;
  Inner.remove_kv := fun _ => unsupported;
  Inner.verify_vid := fun _ _ => unsupported;
  Inner.add_private_vid := fun _ _ _ => unsupported;
  Inner.forget_vid := fun _ => unsupported;
  Inner.resolve_alias := fun _ => unsupported;
  Inner.add_verified_owned_vid := fun _ _ _ => unsupported;
  Inner.set_route_for_vid := fun _ _ => unsupported;
  Inner.seal_message := fun _ _ _ _ => unsupported;
  Inner.open_message := fun _ s => (s, Ok opened);
  Inner.send := fun _ _ _ => unsupported;
  Inner.receive := fun _ s => (s, Ok waiting);
  Inner.get_sender_receiver := fun _ => unsupported;
  Inner.make_relationship_request := fun _ _ _ => unsupported;
  Inner.make_relationship_accept := fun _ _ _ _ => unsupported;
  Inner.make_relationship_cancel := fun _ _ => unsupported;
  Inner.make_nested_relationship_request := fun _ _ => unsupported;
  Inner.make_nested_relationship_accept := fun _ _ _ => unsupported;
  Inner.forward_routed_message := fun _ _ _ => unsupported
|}.

(** A flat native result of the given variant. *)
Definition flat_of (v : ReceivedTspMessageVariant.t) : FlatReceivedTspMessage :=
  mkFlat v "did:peer:alice" (Some "did:peer:bob") None
    (Some (String.list_byte_of_string "hello world"))
    None None None None None None None.

Definition dummy_flat : FlatReceivedTspMessage :=
  flat_of ReceivedTspMessageVariant.GenericMessage.

Definition dummy_envelope : Envelope :=
  Wire.Seal "did:peer:alice" "did:peer:bob" None HpkeAuth Ed25519 (Wire.Content []).

(** A native store whose [seal_message] puts every argument it gets,
    [nonconfidential_data] included, into the envelope it returns. *)
Definition sealing : Inner.TspStore unit := {|
  Inner.read_wallet := fun s => (s, Ok tt);
  Inner.write_wallet := fun s => (s, Ok tt);
  Inner.store_kv := fun _ _ => unsupported;
  Inner.get_kv := fun _ => unsupported;
  Inner.remove_kv := fun _ => unsupported;
  Inner.verify_vid := fun _ _ => unsupported;
  Inner.add_private_vid := fun _ _ _ => unsupported;
  Inner.forget_vid := fun _ => unsupported;
  Inner.resolve_alias := fun _ => unsupported;
  Inner.add_verified_owned_vid := fun _ _ _ => unsupported;
  Inner.set_route_for_vid := fun _ _ => unsupported;
  Inner.seal_message := fun snd rcv msg nc s =>
    (s, Ok ("", Wire.Seal snd rcv nc Plaintext NoSignature (Wire.Content msg)));
  Inner.open_message := fun _ => unsupported;
  Inner.send := fun _ _ _ => unsupported;
  Inner.receive := fun _ => unsupported;
  Inner.get_sender_receiver := fun _ => unsupported;
  Inner.make_relationship_request := fun _ _ _ => unsupported;
  Inner.make_relationship_accept := fun _ _ _ _ => unsupported;
  Inner.make_relationship_cancel := fun _ _ => unsupported;
  Inner.make_nested_relationship_request := fun _ _ => unsupported;
  Inner.make_nested_relationship_accept := fun _ _ _ => unsupported;
  Inner.forward_routed_message := fun _ _ _ => unsupported
|}.
End Double.

(** The variant tag of a dataclass. *)
Definition tag (msg : ReceivedTspMessage) : ReceivedTspMessageVariant.t :=
  match msg with
  | GenericMessage _ _ _ _ _ _ => ReceivedTspMessageVariant.GenericMessage
  | RequestRelationship _ _ _ _ _ => ReceivedTspMessageVariant.RequestRelationship
  | AcceptRelationship _ _ _ => ReceivedTspMessageVariant.AcceptRelationship
  | CancelRelationship _ _ => ReceivedTspMessageVariant.CancelRelationship
  | ForwardRequest _ _ _ _ _ => ReceivedTspMessageVariant.ForwardRequest
  end.

(** The flat results [from_flat] turns into a dataclass: the five
    actionable variants, a generic message carrying its bytes. *)
Definition actionable (f : FlatReceivedTspMessage) : bool :=
  match variant f with
  | ReceivedTspMessageVariant.GenericMessage =>
      match message f with Some _ => true | None => false end
  | ReceivedTspMessageVariant.RequestRelationship
  | ReceivedTspMessageVariant.AcceptRelationship
  | ReceivedTspMessageVariant.CancelRelationship
  | ReceivedTspMessageVariant.ForwardRequest => true
  | ReceivedTspMessageVariant.PendingMessage
  | ReceivedTspMessageVariant.Other _ => false
  end.

(** [m] is the native call [f] (logged as [name]) with the Python code
    [k] on its result, inside the wallet: load, body, flush. *)
Definition runs_in_wallet {S : Type} `{Inner.TspStore S} {A B} (name : string)
    (f : S -> S * Res A) (k : A -> Res B) (m : M S B) : Prop :=
  forall s, m s =
    match Inner.read_wallet s with
    | (s1, Raise e) => (s1, [CallRead], Raise e)
    | (s1, Ok _) =>
        let '(s2, r) := f s1 in
        match Inner.write_wallet s2 with
        | (s3, Raise e) => (s3, [CallRead; CallInner name; CallWrite], Raise e)
        | (s3, Ok _) => (s3, [CallRead; CallInner name; CallWrite], res_bind r k)
        end
    end.

(** The non-confidential data of every layer of an envelope, outermost
    first. *)
Fixpoint all_nonconf (e : Envelope) : list (option bytes) :=
  match e with
  | Wire.Seal _ _ nc _ _ p =>
      nc :: match p with
            | Wire.RoutedMessage _ inner | Wire.NestedMessage inner => all_nonconf inner
            | _ => []
            end
  end.

(* ------------------------------------------------------------------ *)
(** ** Histories of calls to [SecureStore] *)

(** The state a call leaves. *)
Definition state_of {S A : Type} (r : S * list Call * Res A) : S := fst (fst r).

(** A call of a [SecureStore] method, with its arguments. *)
Inductive Op :=
| OpAddPrivate (vid : OwnedVid) (alias : option string)
| OpAddVerified (vid : OwnedVid) (alias : option string)
| OpVerify (did : string) (alias : option string)
| OpForget (vid : string)
| OpStoreKv (key : string) (value : bytes)
| OpRemoveKv (key : string)
| OpSetRoute (vid : string) (route : list string)
| OpSeal (sender receiver : string) (message : bytes)
| OpOpen (message : Envelope)
| OpRequest (sender receiver : string)
| OpAccept (sender receiver : string) (thread_id : bytes).

Definition run_op {S : Type} `{Inner.TspStore S} (o : Op) (s : S) : S :=
  match o with
  | OpAddPrivate v a => state_of (SecureStore.add_private_vid v a None s)
  | OpAddVerified v a => state_of (SecureStore.add_verified_owned_vid v a None s)
  | OpVerify d a => state_of (SecureStore.verify_vid d a s)
  | OpForget v => state_of (SecureStore.forget_vid v s)
  | OpStoreKv k v => state_of (SecureStore.store_kv k v s)
  | OpRemoveKv k => state_of (SecureStore.remove_kv k s)
  | OpSetRoute v r => state_of (SecureStore.set_route_for_vid v r s)
  | OpSeal a b m => state_of (SecureStore.seal_message a b m s)
  | OpOpen e => state_of (SecureStore.open_message e s)
  | OpRequest a b => state_of (SecureStore.make_relationship_request a b None s)
  | OpAccept a b th => state_of (SecureStore.make_relationship_accept a b th None s)
  end.

Definition run_ops {S : Type} `{Inner.TspStore S} (ops : list Op) (s : S) : S :=
  fold_left (fun s o => run_op o s) ops s.

(** [alias] names no VID in the memory [m] of the model. *)
Definition alias_unset (alias : string) (m : Model.Mem) : Prop := Model.aliases m !! alias = None.

(** The call registers [alias]. *)
Definition registers (alias : string) (o : Op) : bool :=
  match o with
  | OpAddPrivate _ (Some a) | OpAddVerified _ (Some a) | OpVerify _ (Some a) =>
      String.eqb a alias
  | _ => false
  end.

(* ------------------------------------------------------------------ *)
(** ** The set-ups of [test.py], run through [SecureStore] *)

Module Scenarios.
Definition endpoint : string := "tcp://127.0.0.1:1337".

(** [new_vid()], with a readable name in place of the random DID. *)
Definition vid (name : string) : OwnedVid := mkOwnedVid ("did:peer:" ++ name) endpoint.
Definition did (name : string) : string := identifier (vid name).

Definition after {A} (r : Model.St * list Call * Res A) : Model.St := state_of r.
Definition wallet (s : Model.St) : Model.Mem :=
  match Model.disk s with Some d => d | None => Model.empty_mem end.

Definition add_private (name : string) (s : Model.St) : Model.St :=
  after (SecureStore.add_private_vid (vid name) None None s).
Definition add_verified (name : string) (s : Model.St) : Model.St :=
  after (SecureStore.add_verified_owned_vid (vid name) None None s).
Definition request (snd rcv : string) (s : Model.St) : Model.St :=
  after (SecureStore.make_relationship_request (did snd) (did rcv) None s).
Definition set_route (name : string) (route : list string) (s : Model.St) : Model.St :=
  after (SecureStore.set_route_for_vid (did name) (map did route) s).

Definition hello_world : bytes := String.list_byte_of_string "hello world".

(** [AliceBob.setUp] *)
Definition alice_bob : Model.St := add_private "bob" (add_private "alice" Model.new_store).

(** [test_routed] *)
Definition routed_a : Model.St :=
  set_route "sneaky_d" ["b"; "c"; "mailbox_c"]
    (request "sneaky_a" "sneaky_d" (request "nette_a" "b"
       (add_verified "sneaky_d" (add_verified "b"
          (add_private "sneaky_a" (add_private "nette_a" Model.new_store)))))).
Definition routed_b : Model.St :=
  request "b" "c" (add_verified "c" (add_verified "nette_a"
    (add_private "b" Model.new_store))).
Definition routed_c : Model.St :=
  request "nette_d" "mailbox_c" (add_private "nette_d" (add_verified "b"
    (add_private "c" (add_private "mailbox_c" Model.new_store)))).
Definition routed_d : Model.St :=
  add_verified "mailbox_c" (add_verified "sneaky_a"
    (add_private "nette_d" (add_private "sneaky_d" Model.new_store))).

(** [test_nested_automatic] *)
Definition pair_a : Model.St := add_verified "b" (add_private "a" Model.new_store).
Definition pair_b : Model.St := add_verified "a" (add_private "b" Model.new_store).

(** A history registering the alias [alice] (and [bob]), never [carol]. *)
Definition alias_history : list Op :=
  [OpAddPrivate (vid "alice") (Some "alice"); OpAddPrivate (vid "bob") (Some "bob");
   OpRequest (did "alice") (did "bob"); OpForget (did "bob")].
End Scenarios.

(* ------------------------------------------------------------------ *)
(** ** Fields shared by the dataclasses of [tsp_python/tsp.py] *)

(** [msg.sender] and [msg.receiver] of a dataclass built by [from_flat]. *)
Definition msg_sender (msg : ReceivedTspMessage) : string :=
  match msg with
  | GenericMessage s _ _ _ _ _ | RequestRelationship s _ _ _ _
  | AcceptRelationship s _ _ | CancelRelationship s _
  | ForwardRequest s _ _ _ _ => s
  end.

Definition msg_receiver (msg : ReceivedTspMessage) : option string :=
  match msg with
  | GenericMessage _ r _ _ _ _ | RequestRelationship _ r _ _ _
  | AcceptRelationship _ r _ | CancelRelationship _ r
  | ForwardRequest _ r _ _ _ => r
  end.

(** For comparison: the flat record carrying the fields of a dataclass,
    every other field [None]. *)
Definition to_flat (msg : ReceivedTspMessage) : FlatReceivedTspMessage :=
  match msg with
  | GenericMessage s r nc m ct st =>
      mkFlat ReceivedTspMessageVariant.GenericMessage s r nc (Some m) ct st
        None None None None None
  | RequestRelationship s r rt nv th =>
      mkFlat ReceivedTspMessageVariant.RequestRelationship s r None None None None
        rt nv th None None
  | AcceptRelationship s r nv =>
      mkFlat ReceivedTspMessageVariant.AcceptRelationship s r None None None None
        None nv None None None
  | CancelRelationship s r =>
      mkFlat ReceivedTspMessageVariant.CancelRelationship s r None None None None
        None None None None None
  | ForwardRequest s r nh rt op =>
      mkFlat ReceivedTspMessageVariant.ForwardRequest s r None None None None
        rt None None nh op
  end.

(* ------------------------------------------------------------------ *)
(** ** The older binding [src/tsp_python/tsp.py]

    Its [Store] forwards every call to the native store, with no wallet,
    and decodes the result of [open_message] with its own [from_flat],
    whose dataclasses have no [receiver] field. *)

Module Legacy.
Inductive ReceivedTspMessage :=
| GenericMessage (sender : string) (nonconfidential_data : option bytes)
    (message : bytes) (crypto_type : option CryptoType)
    (signature_type : option SignatureType)
| RequestRelationship (sender : string) (route : option (list string))
    (nested_vid : option string) (thread_id : option bytes)
| AcceptRelationship (sender : string) (nested_vid : option string)
| CancelRelationship (sender : string)
| ForwardRequest (sender : string) (next_hop : option string)
    (route : option (list string)) (opaque_payload : option Envelope).

(** [ReceivedTspMessage.from_flat] of [src/tsp_python/tsp.py]. *)
Definition from_flat (msg : FlatReceivedTspMessage) : Res ReceivedTspMessage :=
  match variant msg with
  | ReceivedTspMessageVariant.GenericMessage =>
      match message msg with
      | Some m =>
          Ok (GenericMessage (sender msg) (nonconfidential_data msg) m
                (crypto_type msg) (signature_type msg))
      | None => Raise (TypeError "cannot convert 'NoneType' object to bytes")
      end
  | ReceivedTspMessageVariant.RequestRelationship =>
      Ok (RequestRelationship (sender msg) (route msg) (nested_vid msg)
            (thread_id msg))
  | ReceivedTspMessageVariant.AcceptRelationship =>
      Ok (AcceptRelationship (sender msg) (nested_vid msg))
  | ReceivedTspMessageVariant.CancelRelationship =>
      Ok (CancelRelationship (sender msg))
  | ReceivedTspMessageVariant.ForwardRequest =>
      Ok (ForwardRequest (sender msg) (next_hop msg) (route msg)
            (opaque_payload msg))
  | ReceivedTspMessageVariant.PendingMessage =>
      Raise (ValueError "todo!")
  | ReceivedTspMessageVariant.Other other =>
      Raise (ValueError ("Unrecognized variant: " ++ other))
  end.

Definition res_map {A B} (f : A -> B) (r : Res A) : Res B :=
  match r with Ok a => Ok (f a) | Raise e => Raise e end.
End Legacy.

(** For comparison with the current binding: a current dataclass with its
    [receiver] field left out. *)
Definition legacy_of_current (msg : ReceivedTspMessage) : Legacy.ReceivedTspMessage :=
  match msg with
  | GenericMessage s _ nc m ct st => Legacy.GenericMessage s nc m ct st
  | RequestRelationship s _ r nv th => Legacy.RequestRelationship s r nv th
  | AcceptRelationship s _ nv => Legacy.AcceptRelationship s nv
  | CancelRelationship s _ => Legacy.CancelRelationship s
  | ForwardRequest s _ nh r op => Legacy.ForwardRequest s nh r op
  end.

(* ------------------------------------------------------------------ *)
(** ** The asynchronous example [src/tsp-python/example.py]

    It targets the native [AsyncStore], whose flat result carries a
    [message_type] in place of the crypto and signature types, and
    defines its own dataclasses, each with the single field [sender]
    ([GenericMessage]'s other attributes carry no annotation, so they
    are class attributes, not fields). *)

Module AsyncExample.
Record FlatReceivedTspMessage := mkFlat {
  variant : ReceivedTspMessageVariant.t;
  sender : string;
  nonconfidential_data : option bytes;
  message : option bytes;
  message_type : string
}.

Inductive ReceivedTspMessage :=
| GenericMessage (sender : string)
| AcceptRelationship (sender : string)
| CancelRelationship (sender : string).

(** A call [cls(a1, ..., an)] of a dataclass [cls] with [fields] fields
    and [given] positional arguments: the generated [__init__] takes
    [self] and one argument per field, and raises a [TypeError] on any
    other count; [v] is the instance built when the count matches. *)
Definition dataclass_init {A} (cls : string) (fields given : nat) (v : A) : Res A :=
  if Nat.eqb given fields then Ok v
  else Raise (TypeError (cls ++ ".__init__() takes " ++ pretty (S fields)
    ++ " positional arguments but " ++ pretty (S given) ++ " were given")).

(** [ReceivedTspMessage.from_flat] of the example.  The [GenericMessage]
    arm calls [AcceptRelationship] with four arguments. *)
Definition from_flat (msg : FlatReceivedTspMessage) : Res ReceivedTspMessage :=
  match variant msg with
  | ReceivedTspMessageVariant.GenericMessage =>
      dataclass_init "AcceptRelationship" 1 4 (AcceptRelationship (sender msg))
  | ReceivedTspMessageVariant.RequestRelationship => Raise (ValueError "todo!")
  | ReceivedTspMessageVariant.AcceptRelationship =>
      dataclass_init "AcceptRelationship" 1 1 (AcceptRelationship (sender msg))
  | ReceivedTspMessageVariant.CancelRelationship =>
      dataclass_init "CancelRelationship" 1 1 (CancelRelationship (sender msg))
  | ReceivedTspMessageVariant.ForwardRequest => Raise (ValueError "todo!")
  | ReceivedTspMessageVariant.PendingMessage => Raise (ValueError "todo!")
  | ReceivedTspMessageVariant.Other other =>
      Raise (ValueError ("Unrecognized variant: " ++ other))
  end.

(** The outcome of [await anext(stream)]. *)
Inductive Next :=
| Yield (msg : ReceivedTspMessage)
| StopAsyncIteration
| Failed (e : PyExc).

(** [ReceivedTspMessageStream.__anext__], given the value [result] of
    [await self.future.next()]. *)
Definition anext (result : option FlatReceivedTspMessage) : Next :=
  match result with
  | None => StopAsyncIteration
  | Some r =>
      match from_flat r with
      | Ok m => Yield m
      | Raise e => Failed e
      end
  end.
End AsyncExample.

(* ------------------------------------------------------------------ *)
(** ** The service endpoint in [tsp_provision_did]
    ([src/tsp_sdk/src/vid/did/tsp_provision_webvh.py])

    Line 21 turns the percent-encoded braces of the first service
    endpoint of the genesis document back into braces, in place, before
    the document goes to [did_webvh] (a library outside the repository). *)

Module Provision.

(** Python [str.replace] with a non-empty [old]: scan from the left,
    replace each occurrence and resume after it; [skip] counts the
    characters of the occurrence just replaced. *)
Fixpoint replace_from (old new : string) (skip : nat) (s : string) : string :=
  match s with
  | EmptyString => EmptyString
  | String c s' =>
      match skip with
      | S k => replace_from old new k s'
      | O =>
          if String.prefix old s
          then new ++ replace_from old new (String.length old - 1) s'
          else String c (replace_from old new 0 s')
      end
  end.

(** [s.replace("", new)]: [new] before every character and at the end. *)
Fixpoint replace_empty (new s : string) : string :=
  match s with
  | EmptyString => new
  | String c s' => new ++ String c (replace_empty new s')
  end.

(** [s.replace(old, new)] *)
Definition py_replace (s old new : string) : string :=
  if String.eqb old "" then replace_empty new s else replace_from old new 0 s.

(** [sub in s] *)
Fixpoint py_contains (sub s : string) : bool :=
  match s with
  | EmptyString => String.eqb sub ""
  | String _ s' => String.prefix sub s || py_contains sub s'
  end.

(** [e.replace('%7B', '{').replace('%7D', '}')] *)
Definition unescape_braces (e : string) : string :=
  py_replace (py_replace e "%7B" "{") "%7D" "}".

(** [%7x], the percent-encoding of a character [x] whose code is 0x7x. *)
Definition pct (x : ascii) : string := String "%" (String "7" (String x EmptyString)).

(** A document decoded from JSON. *)
Inductive Json :=
| JNull
| JBool (b : bool)
| JInt (n : Z)
| JStr (s : string)
| JList (l : list Json)
| JDict (d : list (string * Json)).

(** The exceptions the line can raise. *)
Inductive Exc :=
| KeyError (key : string)
| IndexError (msg : string)
| TypeError (msg : string)
| AttributeError (msg : string).

Inductive Result (A : Type) :=
| Ret (a : A)
| Throw (e : Exc).
Arguments Ret {A} a.
Arguments Throw {A} e.

Definition bind {A B} (r : Result A) (f : A -> Result B) : Result B :=
  match r with Ret a => f a | Throw e => Throw e end.
Local Notation "'let!' x := r 'in' k" := (bind r (fun x => k))
  (at level 200, x name, r at level 100, k at level 200).

Definition type_name (v : Json) : string :=
  match v with
  | JNull => "NoneType" | JBool _ => "bool" | JInt _ => "int"
  | JStr _ => "str" | JList _ => "list" | JDict _ => "dict"
  end.

(** Lookup in a dict, whose keys are distinct. *)
Fixpoint dict_get (k : string) (d : list (string * Json)) : option Json :=
  match d with
  | [] => None
  | (k', v) :: d' => if String.eqb k k' then Some v else dict_get k d'
  end.

(** [d[k] = v]: replace the value of [k] in place, or add [k] at the end. *)
Fixpoint dict_set (k : string) (v : Json) (d : list (string * Json))
    : list (string * Json) :=
  match d with
  | [] => [(k, v)]
  | (k', v') :: d' =>
      if String.eqb k k' then (k', v) :: d' else (k', v') :: dict_set k v d'
  end.

(** [v[k]] with a string key. *)
Definition getitem_str (v : Json) (k : string) : Result Json :=
  match v with
  | JDict d => match dict_get k d with Some x => Ret x | None => Throw (KeyError k) end
  | JList _ => Throw (TypeError "list indices must be integers or slices, not str")
  | JStr _ => Throw (TypeError "string indices must be integers, not 'str'")
  | _ => Throw (TypeError ("'" ++ type_name v ++ "' object is not subscriptable"))
  end.

(** [v[0]] *)
Definition getitem_0 (v : Json) : Result Json :=
  match v with
  | JList (x :: _) => Ret x
  | JList [] => Throw (IndexError "list index out of range")
  | JDict _ => Throw (KeyError "0")
  | JStr (String c _) => Ret (JStr (String c EmptyString))
  | JStr EmptyString => Throw (IndexError "string index out of range")
  | _ => Throw (TypeError ("'" ++ type_name v ++ "' object is not subscriptable"))
  end.

(** [v.replace(old, new)] *)
Definition replace_attr (v : Json) (old new : string) : Result Json :=
  match v with
  | JStr s => Ret (JStr (py_replace s old new))
  | _ => Throw (AttributeError ("'" ++ type_name v ++ "' object has no attribute 'replace'"))
  end.

(** [doc['service'][0]['serviceEndpoint'] = v]: the target
    [doc['service'][0]] is evaluated again, then updated in place; the
    caller's [doc] is changed through it. *)
Definition set_service_endpoint (doc v : Json) : Result Json :=
  let! svc := getitem_str doc "service" in
  let! first := getitem_0 svc in
  match doc, svc, first with
  | JDict d, JList (_ :: rest), JDict e =>
      Ret (JDict (dict_set "service"
             (JList (JDict (dict_set "serviceEndpoint" v e) :: rest)) d))
  | _, _, _ =>
      Throw (TypeError ("'" ++ type_name first ++ "' object does not support item assignment"))
  end.

(** Line 21 of [tsp_provision_did]: the right-hand side first, then the
    assignment; the result is the caller's [genesis_document] afterwards. *)
Definition unescape_service_endpoint (genesis_document : Json) : Result Json :=
  let! svc := getitem_str genesis_document "service" in
  let! first := getitem_0 svc in
  let! ep := getitem_str first "serviceEndpoint" in
  let! ep1 := replace_attr ep "%7B" "{" in
  let! ep2 := replace_attr ep1 "%7D" "}" in
  set_service_endpoint genesis_document ep2.
End Provision.

(* ================================================================== *)
(** * Properties *)

Section Bracket.
Context {S : Type} `{Inner.TspStore S}.

Lemma with_wallet_call_then {A B} (name : string) (f : S -> S * Res A)
    (k : A -> Res B) :
  runs_in_wallet name f k (SecureStore.with_wallet (SecureStore.call_then name f k)).
Proof.
  intros s. unfold SecureStore.with_wallet, SecureStore.call, SecureStore.call_then.
  destruct (Inner.read_wallet s) as [s1 [u|e]]; [|reflexivity].
  destruct (f s1) as [s2 r].
  destruct (Inner.write_wallet s2) as [s3 [u'|e']]; reflexivity.
Qed.
End Bracket.

Ltac in_wallet := intros; apply with_wallet_call_then.

(** C2: every method of [SecureStore] runs its native call inside the
    wallet: [read_wallet] first (if it raises, nothing else runs), then
    the body, then [write_wallet] on the state the body left, whether the
    body returned or raised; the body's exception is propagated unless
    the flush itself raises. *)
Theorem every_method_flushes_wallet {S : Type} `{Inner.TspStore S} :
  (forall key value, runs_in_wallet "store_kv" (Inner.store_kv key value) Ok
                       (SecureStore.store_kv key value)) /\
  (forall key, runs_in_wallet "get_kv" (Inner.get_kv key) Ok (SecureStore.get_kv key)) /\
  (forall key, runs_in_wallet "remove_kv" (Inner.remove_kv key) Ok
                 (SecureStore.remove_kv key)) /\
  (forall did alias, runs_in_wallet "verify_vid" (Inner.verify_vid did alias) Ok
                       (SecureStore.verify_vid did alias)) /\
  (forall vid alias md, runs_in_wallet "add_private_vid" (Inner.add_private_vid vid alias md) Ok
                          (SecureStore.add_private_vid vid alias md)) /\
  (forall vid, runs_in_wallet "forget_vid" (Inner.forget_vid vid) Ok
                 (SecureStore.forget_vid vid)) /\
  (forall alias, runs_in_wallet "resolve_alias" (Inner.resolve_alias alias) Ok
                   (SecureStore.resolve_alias alias)) /\
  (forall vid alias md, runs_in_wallet "add_verified_owned_vid"
                          (Inner.add_verified_owned_vid vid alias md) Ok
                          (SecureStore.add_verified_owned_vid vid alias md)) /\
  (forall vid route, runs_in_wallet "set_route_for_vid" (Inner.set_route_for_vid vid route) Ok
                       (SecureStore.set_route_for_vid vid route)) /\
  (forall snd rcv msg, runs_in_wallet "seal_message" (Inner.seal_message snd rcv msg None) Ok
                         (SecureStore.seal_message snd rcv msg)) /\
  (forall e, runs_in_wallet "open_message" (Inner.open_message e) from_flat
               (SecureStore.open_message e)) /\
  (forall snd rcv msg, runs_in_wallet "send" (Inner.send snd rcv msg) Ok
                         (SecureStore.send snd rcv msg)) /\
  (forall vid, runs_in_wallet "receive" (Inner.receive vid) SecureStore.receive_result
                 (SecureStore.receive vid)) /\
  (forall e, runs_in_wallet "get_sender_receiver" (Inner.get_sender_receiver e) Ok
               (SecureStore.get_sender_receiver e)) /\
  (forall snd rcv route, runs_in_wallet "make_relationship_request"
                           (Inner.make_relationship_request snd rcv route) Ok
                           (SecureStore.make_relationship_request snd rcv route)) /\
  (forall snd rcv th route, runs_in_wallet "make_relationship_accept"
                              (Inner.make_relationship_accept snd rcv th route) Ok
                              (SecureStore.make_relationship_accept snd rcv th route)) /\
  (forall snd rcv, runs_in_wallet "make_relationship_cancel"
                     (Inner.make_relationship_cancel snd rcv) Ok
                     (SecureStore.make_relationship_cancel snd rcv)) /\
  (forall parent rcv, runs_in_wallet "make_nested_relationship_request"
                        (Inner.make_nested_relationship_request parent rcv) Ok
                        (SecureStore.make_nested_relationship_request parent rcv)) /\
  (forall snd rcv th, runs_in_wallet "make_nested_relationship_accept"
                        (Inner.make_nested_relationship_accept snd rcv th) Ok
                        (SecureStore.make_nested_relationship_accept snd rcv th)) /\
  (forall hop route p, runs_in_wallet "forward_routed_message"
                         (Inner.forward_routed_message hop route p) Ok
                         (SecureStore.forward_routed_message hop route p)).
Proof. repeat split; in_wallet. Qed.

(** C7: when the native store decodes a [PendingMessage], [open_message]
    returns no value: [from_flat] raises [ValueError("todo!")], which
    reaches the caller after the wallet flush (or the flush's own
    exception does). *)
Theorem open_message_pending_raises {S : Type} `{Inner.TspStore S}
    (e : Envelope) (s s1 s2 : S) (u : unit) (flat : FlatReceivedTspMessage) :
  Inner.read_wallet s = (s1, Ok u) ->
  Inner.open_message e s1 = (s2, Ok flat) ->
  variant flat = ReceivedTspMessageVariant.PendingMessage ->
  (exists exc, snd (SecureStore.open_message e s) = Raise exc) /\
  snd (SecureStore.open_message e s) =
    match snd (Inner.write_wallet s2) with
    | Ok _ => Raise (ValueError "todo!")
    | Raise x => Raise x
    end.
Proof.
  intros Hr Ho Hv.
  assert (Heq : snd (SecureStore.open_message e s) =
    match snd (Inner.write_wallet s2) with
    | Ok _ => Raise (ValueError "todo!")
    | Raise x => Raise x
    end).
  { unfold SecureStore.open_message.
    rewrite (with_wallet_call_then "open_message" (Inner.open_message e) from_flat s).
    rewrite Hr, Ho. simpl. unfold from_flat. rewrite Hv.
    destruct (Inner.write_wallet s2) as [s3 [w|x]]; reflexivity. }
  split; [|exact Heq].
  rewrite Heq. destruct (snd (Inner.write_wallet s2)); eexists; reflexivity.
Qed.

Lemma open_message_pending_raises_witness :
  let I := Double.answering (Double.flat_of ReceivedTspMessageVariant.PendingMessage) None in
  (exists exc, snd (@SecureStore.open_message unit I Double.dummy_envelope tt) = Raise exc) /\
  snd (@SecureStore.open_message unit I Double.dummy_envelope tt) = Raise (ValueError "todo!").
Proof.
  intros I.
  exact (@open_message_pending_raises unit I Double.dummy_envelope tt tt tt tt
           (Double.flat_of ReceivedTspMessageVariant.PendingMessage)
           eq_refl eq_refl eq_refl).
Defined.

(** C8 (as stated: an unknown variant fails with an [UnknownVariant]
    error) fails: the Python layer raises a [ValueError]. *)
Lemma open_message_unknown_variant_counterexample :
  let I := Double.answering (Double.flat_of (ReceivedTspMessageVariant.Other "7")) None in
  snd (@SecureStore.open_message unit I Double.dummy_envelope tt)
    = Raise (ValueError "Unrecognized variant: 7") /\
  snd (@SecureStore.open_message unit I Double.dummy_envelope tt)
    <> Raise (TspException UnknownVariant).
Proof.
  intros I. split; [reflexivity|].
  intros Hc. vm_compute in Hc. discriminate Hc.
Qed.

(** C8 (amended): when the native store decodes a variant outside the
    six known ones, [open_message] raises
    [ValueError("Unrecognized variant: <variant>")] (after the wallet
    flush, whose own exception would take its place); no message is
    returned, in particular none of a known variant. *)
Theorem open_message_unknown_variant_raises {S : Type} `{Inner.TspStore S}
    (e : Envelope) (s s1 s2 : S) (u : unit) (flat : FlatReceivedTspMessage)
    (other : string) :
  Inner.read_wallet s = (s1, Ok u) ->
  Inner.open_message e s1 = (s2, Ok flat) ->
  variant flat = ReceivedTspMessageVariant.Other other ->
  snd (SecureStore.open_message e s) =
    match snd (Inner.write_wallet s2) with
    | Ok _ => Raise (ValueError ("Unrecognized variant: " ++ other))
    | Raise x => Raise x
    end.
Proof.
  intros Hr Ho Hv. unfold SecureStore.open_message.
  rewrite (with_wallet_call_then "open_message" (Inner.open_message e) from_flat s).
  rewrite Hr, Ho. simpl. unfold from_flat. rewrite Hv.
  destruct (Inner.write_wallet s2) as [s3 [w|x]]; reflexivity.
Qed.

Lemma open_message_unknown_variant_raises_witness :
  let I := Double.answering (Double.flat_of (ReceivedTspMessageVariant.Other "7")) None in
  snd (@SecureStore.open_message unit I Double.dummy_envelope tt)
    = Raise (ValueError "Unrecognized variant: 7").
Proof.
  intros I.
  exact (@open_message_unknown_variant_raises unit I Double.dummy_envelope tt tt tt tt
           (Double.flat_of (ReceivedTspMessageVariant.Other "7")) "7"
           eq_refl eq_refl eq_refl).
Defined.

(** C10 (as stated: a waiting message always comes back as a tagged
    message, without exception) fails: a waiting [PendingMessage] makes
    [receive] raise. *)
Lemma receive_pending_counterexample :
  let I := Double.answering Double.dummy_flat
             (Some (Double.flat_of ReceivedTspMessageVariant.PendingMessage)) in
  snd (@SecureStore.receive unit I "did:peer:bob" tt) = Raise (ValueError "todo!").
Proof. reflexivity. Qed.

(** C10 (amended): with the wallet loaded and flushed, [receive(vid)]
    returns [None] when the native store has no message, the dataclass
    built by [from_flat] (the dispatch of [open_message]) when the
    message has one of the five actionable variants, and raises
    otherwise ([PendingMessage], an unrecognised variant). *)
Theorem receive_dispatch {S : Type} `{Inner.TspStore S}
    (vid : string) (s s1 s2 s3 : S) (u u' : unit)
    (fo : option FlatReceivedTspMessage) :
  Inner.read_wallet s = (s1, Ok u) ->
  Inner.receive vid s1 = (s2, Ok fo) ->
  Inner.write_wallet s2 = (s3, Ok u') ->
  match fo with
  | None => snd (SecureStore.receive vid s) = Ok None
  | Some f =>
      if actionable f then
        exists msg, snd (SecureStore.receive vid s) = Ok (Some msg) /\
                    from_flat f = Ok msg /\ tag msg = variant f
      else exists exc, snd (SecureStore.receive vid s) = Raise exc
  end.
Proof.
  intros Hr Hv Hw. unfold SecureStore.receive.
  rewrite (with_wallet_call_then "receive" (Inner.receive vid)
             SecureStore.receive_result s).
  rewrite Hr, Hv, Hw. simpl.
  destruct fo as [f|]; [|reflexivity].
  unfold actionable, SecureStore.receive_result, from_flat.
  destruct (variant f); try destruct (message f); simpl; eauto.
Qed.

Lemma receive_dispatch_witness :
  let I := Double.answering Double.dummy_flat
             (Some (Double.flat_of ReceivedTspMessageVariant.GenericMessage)) in
  exists msg, snd (@SecureStore.receive unit I "did:peer:bob" tt) = Ok (Some msg) /\
    from_flat (Double.flat_of ReceivedTspMessageVariant.GenericMessage) = Ok msg /\
    tag msg = ReceivedTspMessageVariant.GenericMessage.
Proof.
  intros I.
  exact (@receive_dispatch unit I "did:peer:bob" tt tt tt tt tt tt
           (Some (Double.flat_of ReceivedTspMessageVariant.GenericMessage))
           eq_refl eq_refl eq_refl).
Defined.

(* ------------------------------------------------------------------ *)
(** ** Lemmas on the model of the native store *)

Module ModelFacts.
Import Model.

Lemma set_mem_id (s : St) : set_mem (mem s) s = s.
Proof. destruct s; reflexivity. Qed.

(** A [SecureStore] method over the model, with a readable wallet:
    the body runs on the persisted memory, then the memory is flushed. *)
Lemma in_wallet {A B} (name : string) (f : St -> St * Res A) (k : A -> Res B)
    (s : St) (d : Mem) :
  disk s = Some d ->
  SecureStore.with_wallet (SecureStore.call_then name f k) s =
    let '(s2, r) := f (set_mem d s) in
    (fst (write_wallet s2), [CallRead; CallInner name; CallWrite], res_bind r k).
Proof.
  intros Hd. rewrite (with_wallet_call_then name f k s).
  cbn [Inner.read_wallet Inner.write_wallet native].
  unfold read_wallet at 1. rewrite Hd.
  destruct (f (set_mem d s)) as [s2 r]. reflexivity.
Qed.

Lemma query_ok {A} (f : Mem -> Res A) (s : St) (a : A) :
  f (mem s) = Ok a -> query f s = (s, Ok a).
Proof. intros Hf. unfold query, on_mem. rewrite Hf. simpl. by rewrite set_mem_id. Qed.

Lemma on_mem_ok {A} (f : Mem -> Res (Mem * A)) (s : St) (m' : Mem) (a : A) :
  f (mem s) = Ok (m', a) -> on_mem f s = (set_mem m' s, Ok a).
Proof. intros Hf. unfold on_mem. by rewrite Hf. Qed.

Lemma write_set_mem (d : Mem) (s : St) : fst (write_wallet (set_mem d s)) = flushed d s.
Proof. reflexivity. Qed.

Lemma disk_flushed (d : Mem) (s : St) : disk (flushed d s) = Some d.
Proof. reflexivity. Qed.

Lemma set_mem_flushed (d d' : Mem) (s : St) : set_mem d' (flushed d s) = mkSt d' (Some d) (resolver s) (incoming s) (outbox s).
Proof. reflexivity. Qed.

Lemma is_private_of (m : Mem) (v : string) (r : VidRec) :
  vids m !! v = Some r -> vr_role r = Private -> is_private m v = true.
Proof. intros Hl Hr. unfold is_private. by rewrite Hl, Hr. Qed.

Lemma knows_of (m : Mem) (v : string) (r : VidRec) :
  vids m !! v = Some r -> knows m v = true.
Proof. intros Hl. unfold knows. by rewrite Hl. Qed.

Lemma knows_private (m : Mem) (v : string) :
  is_private m v = true -> knows m v = true.
Proof. unfold is_private, knows. by destruct (vids m !! v). Qed.

(** Sealing toward a VID without route. *)
Lemma seal_plain (m : Mem) (a b : string) (rb : VidRec) nc p :
  is_private m a = true -> vids m !! b = Some rb -> vr_route rb = None ->
  seal_message_payload m a b nc p = Ok (vr_endpoint rb, Wire.Seal a b nc HpkeAuth Ed25519 p).
Proof.
  intros Ha Hb Hr. unfold seal_message_payload, seal_env.
  rewrite Hb, Hr, Ha. by rewrite (knows_of m b rb Hb).
Qed.

(** Opening an envelope: the signature and decryption checks pass. *)
Lemma open_checks (m : Mem) (a b : string) nc ct sg p :
  knows m a = true -> is_private m b = true ->
  open_env m (Wire.Seal a b nc ct sg p) =
    match p with
    | Wire.NestedMessage inner => open_env m inner
    | _ => open_env m (Wire.Seal a b nc ct sg p)
    end.
Proof. intros Ha Hb. destruct p; try reflexivity. simpl. by rewrite Ha, Hb. Qed.
End ModelFacts.

Lemma vid_kind_private (m : Model.Mem) (v : string) :
  Model.vid_kind m v = Some Model.KPrivate ->
  exists r, Model.vids m !! v = Some r /\ Model.vr_role r = Model.Private /\
            Model.vr_route r = None.
Proof.
  unfold Model.vid_kind. intros H.
  destruct (Model.vids m !! v) as [r|]; [|discriminate H].
  destruct (Model.vr_route r) eqn:Er; [discriminate H|].
  destruct (Model.vr_role r) eqn:E; [|discriminate H]. eauto.
Qed.

(** C1 (spec-modelled native store): for two private VIDs [a] and [b]
    of the persisted wallet and any bytes [m], the bytes sealed by
    [seal_message(a, b, m)] open, in the same store, to a
    [GenericMessage] with sender [a], receiver [b] and message [m],
    encrypted and signed. *)
Theorem seal_open_roundtrip (s : Model.St) (d : Model.Mem) (a b : string) (m : bytes) :
  Model.disk s = Some d ->
  Model.vid_kind d a = Some Model.KPrivate ->
  Model.vid_kind d b = Some Model.KPrivate ->
  exists s1 tr1 url sealed,
    SecureStore.seal_message a b m s = (s1, tr1, Ok (url, sealed)) /\
    exists s2 tr2 nc ct sg,
      SecureStore.open_message sealed s1 =
        (s2, tr2, Ok (GenericMessage a (Some b) nc m (Some ct) (Some sg))) /\
      ct <> Plaintext /\ sg <> NoSignature.
Proof.
  intros Hd Ha Hb.
  destruct (vid_kind_private d a Ha) as (ra & Hla & Hra & _).
  destruct (vid_kind_private d b Hb) as (rb & Hlb & Hrb & Hrtb).
  pose proof (ModelFacts.is_private_of d a ra Hla Hra) as Pa.
  pose proof (ModelFacts.is_private_of d b rb Hlb Hrb) as Pb.
  unfold SecureStore.seal_message, SecureStore.call_inner.
  rewrite (ModelFacts.in_wallet _ _ _ s d Hd).
  cbn [Inner.seal_message Model.native].
  unfold Model.seal_message.
  rewrite (ModelFacts.query_ok _ _ (Model.vr_endpoint rb,
             Wire.Seal a b None HpkeAuth Ed25519 (Wire.Content m)));
    [|exact (ModelFacts.seal_plain d a b rb None _ Pa Hlb Hrtb)].
  do 4 eexists. split; [reflexivity|].
  unfold SecureStore.open_message.
  rewrite (ModelFacts.in_wallet _ _ _ _ d (ModelFacts.disk_flushed d (Model.set_mem d s))).
  cbn [Inner.open_message Model.native]. unfold Model.open_message, Model.on_mem.
  cbn [Model.mem Model.set_mem]. simpl Model.open_env.
  rewrite (ModelFacts.knows_private d a Pa), Pb. simpl.
  do 5 eexists. split; [reflexivity|]. split; discriminate.
Qed.

Lemma seal_open_roundtrip_witness :
  exists s1 tr1 url sealed,
    SecureStore.seal_message (Scenarios.did "alice") (Scenarios.did "bob")
      Scenarios.hello_world Scenarios.alice_bob = (s1, tr1, Ok (url, sealed)) /\
    exists s2 tr2 nc ct sg,
      SecureStore.open_message sealed s1 =
        (s2, tr2, Ok (GenericMessage (Scenarios.did "alice") (Some (Scenarios.did "bob"))
                        nc Scenarios.hello_world (Some ct) (Some sg))) /\
      ct <> Plaintext /\ sg <> NoSignature.
Proof.
  apply (seal_open_roundtrip Scenarios.alice_bob (Scenarios.wallet Scenarios.alice_bob));
    vm_compute; reflexivity.
Defined.

Module KeyFacts.
Import Model.

Lemma set_relation_keeps rel st : keeps_keys (set_relation rel st).
Proof. intros r. repeat split. Qed.

Lemma update_lookup (v : string) (f : VidRec -> VidRec) (m : Mem) (w : string) :
  vids (update_vid v f m) !! w =
    if decide (v = w) then f <$> (vids m !! w) else vids m !! w.
Proof.
  unfold update_vid. destruct (vids m !! v) eqn:E; simpl;
    destruct (decide (v = w)) as [<-|Hne].
  - by rewrite lookup_insert_eq, E.
  - by rewrite lookup_insert_ne.
  - by rewrite E.
  - reflexivity.
Qed.

Ltac by_update_lookup H :=
  intros; unfold is_private, knows, route_of, endpoint_of, relation_of;
  rewrite update_lookup; destruct (decide _) as [<-|?]; [|reflexivity];
  destruct (vids _ !! _) as [r|]; simpl; [|reflexivity];
  destruct (H r) as (Hr1 & Hr2 & Hr3); rewrite ?Hr1, ?Hr2, ?Hr3; reflexivity.

Lemma update_is_private v f m w : keeps_keys f ->
  is_private (update_vid v f m) w = is_private m w.
Proof. intros H. by_update_lookup H. Qed.

Lemma update_knows v f m w : keeps_keys f ->
  knows (update_vid v f m) w = knows m w.
Proof. intros H. by_update_lookup H. Qed.

Lemma update_route_of v f m w : keeps_keys f ->
  route_of (update_vid v f m) w = route_of m w.
Proof. intros H. by_update_lookup H. Qed.

Lemma update_endpoint_of v f m w : keeps_keys f ->
  endpoint_of (update_vid v f m) w = endpoint_of m w.
Proof. intros H. by_update_lookup H. Qed.

Lemma update_relation_of_ne v f m w : v <> w ->
  relation_of (update_vid v f m) w = relation_of m w.
Proof.
  intros Hne. unfold relation_of. rewrite update_lookup.
  by destruct (decide (v = w)).
Qed.

Lemma relation_knows m v o : relation_of m v = Some o -> knows m v = true.
Proof. unfold relation_of, knows. by destruct (vids m !! v). Qed.

Lemma private_knows m v : is_private m v = true -> knows m v = true.
Proof. unfold is_private, knows. by destruct (vids m !! v). Qed.

(** Inserting a record for [n] leaves the other VIDs alone. *)
Lemma insert_other (n w : string) (r : VidRec) (m : Mem) : n <> w ->
  is_private (set_vids (<[n := r]> (vids m)) m) w = is_private m w /\
  knows (set_vids (<[n := r]> (vids m)) m) w = knows m w /\
  route_of (set_vids (<[n := r]> (vids m)) m) w = route_of m w /\
  relation_of (set_vids (<[n := r]> (vids m)) m) w = relation_of m w /\
  endpoint_of (set_vids (<[n := r]> (vids m)) m) w = endpoint_of m w.
Proof.
  intros Hne. unfold is_private, knows, route_of, relation_of, endpoint_of.
  simpl. by rewrite lookup_insert_ne.
Qed.

Lemma insert_self (n : string) (r : VidRec) (m : Mem) :
  vids (set_vids (<[n := r]> (vids m)) m) !! n = Some r.
Proof. simpl. by rewrite lookup_insert_eq. Qed.
End KeyFacts.

(** Steps of [SecureStore] methods over the model, with a readable
    wallet holding [d]. *)
Module Steps.
Import Model ModelFacts KeyFacts.

Lemma ss_on_mem {A B} (name : string) (f : Mem -> Res (Mem * A)) (k : A -> Res B)
    (s : St) (d d' : Mem) (a : A) (b : B) :
  disk s = Some d -> f d = Ok (d', a) -> k a = Ok b ->
  SecureStore.with_wallet (SecureStore.call_then name (on_mem f) k) s =
    (flushed d' s, [CallRead; CallInner name; CallWrite], Ok b).
Proof.
  intros Hd Hf Hk. rewrite (in_wallet name _ k s d Hd).
  unfold on_mem. cbn [mem set_mem]. rewrite Hf. simpl. by rewrite Hk.
Qed.

Lemma ss_query {A B} (name : string) (f : Mem -> Res A) (k : A -> Res B)
    (s : St) (d : Mem) (a : A) (b : B) :
  disk s = Some d -> f d = Ok a -> k a = Ok b ->
  SecureStore.with_wallet (SecureStore.call_then name (query f) k) s =
    (flushed d s, [CallRead; CallInner name; CallWrite], Ok b).
Proof.
  intros Hd Hf Hk. unfold query. apply (ss_on_mem name _ k s d d a b Hd); [|exact Hk].
  by rewrite Hf.
Qed.

Lemma seal_env_ok (m : Mem) (a b : string) nc p :
  is_private m a = true -> knows m b = true ->
  seal_env m a b nc p = Ok (Wire.Seal a b nc HpkeAuth Ed25519 p).
Proof. intros Ha Hb. unfold seal_env. by rewrite Ha, Hb. Qed.

Lemma seal_payload_plain (m : Mem) (a b : string) nc p :
  is_private m a = true -> knows m b = true -> route_of m b = None ->
  seal_message_payload m a b nc p =
    Ok (endpoint_of m b, Wire.Seal a b nc HpkeAuth Ed25519 p).
Proof.
  intros Ha Hb Hr. unfold seal_message_payload.
  unfold route_of, endpoint_of in *.
  destruct (vids m !! b) as [rb|] eqn:E;
    [|unfold knows in Hb; rewrite E in Hb; discriminate Hb].
  rewrite Hr. by rewrite (seal_env_ok m a b nc p Ha Hb).
Qed.

Lemma seal_payload_routed (m : Mem) (a b h o : string) (hops : list string) nc p :
  is_private m a = true -> knows m b = true ->
  route_of m b = Some (h :: hops) -> relation_of m h = Some o ->
  is_private m o = true ->
  seal_message_payload m a b nc p =
    Ok (endpoint_of m h,
        Wire.Seal o h None HpkeAuth Ed25519
          (Wire.RoutedMessage hops (Wire.Seal a b nc HpkeAuth Ed25519 p))).
Proof.
  intros Ha Hb Hr Ho Po. pose proof (relation_knows m h o Ho) as Kh.
  unfold seal_message_payload. unfold route_of in Hr.
  destruct (vids m !! b) as [rb|] eqn:E; [|discriminate Hr].
  rewrite Hr, (seal_env_ok m a b nc p Ha Hb). cbn [res_bind].
  unfold relation_of in Ho. unfold endpoint_of.
  destruct (vids m !! h) as [rh|] eqn:Eh; [|discriminate Ho].
  rewrite Ho, (seal_env_ok m o h None _ Po Kh). reflexivity.
Qed.

Lemma ss_seal_plain (s : St) (d : Mem) (a b : string) (msg : bytes) :
  disk s = Some d -> is_private d a = true -> knows d b = true -> route_of d b = None ->
  SecureStore.seal_message a b msg s =
    (flushed d s, [CallRead; CallInner "seal_message"; CallWrite],
     Ok (endpoint_of d b, Wire.Seal a b None HpkeAuth Ed25519 (Wire.Content msg))).
Proof.
  intros Hd Ha Hb Hr. unfold SecureStore.seal_message, SecureStore.call_inner.
  cbn [Inner.seal_message native]. unfold seal_message.
  eapply ss_query; [exact Hd| |reflexivity].
  exact (seal_payload_plain d a b None _ Ha Hb Hr).
Qed.

Lemma ss_seal_routed (s : St) (d : Mem) (a b h o : string) (hops : list string)
    (msg : bytes) :
  disk s = Some d -> is_private d a = true -> knows d b = true ->
  route_of d b = Some (h :: hops) -> relation_of d h = Some o ->
  is_private d o = true ->
  SecureStore.seal_message a b msg s =
    (flushed d s, [CallRead; CallInner "seal_message"; CallWrite],
     Ok (endpoint_of d h,
         Wire.Seal o h None HpkeAuth Ed25519
           (Wire.RoutedMessage hops
              (Wire.Seal a b None HpkeAuth Ed25519 (Wire.Content msg))))).
Proof.
  intros Hd Ha Hb Hr Ho Po. unfold SecureStore.seal_message, SecureStore.call_inner.
  cbn [Inner.seal_message native]. unfold seal_message.
  eapply ss_query; [exact Hd| |reflexivity].
  exact (seal_payload_routed d a b h o hops None _ Ha Hb Hr Ho Po).
Qed.

Lemma ss_forward_hop (s : St) (d : Mem) (hop o : string) (route : list string)
    (p : Envelope) :
  disk s = Some d -> route <> [] -> relation_of d hop = Some o ->
  is_private d o = true ->
  SecureStore.forward_routed_message hop route p s =
    (flushed d s, [CallRead; CallInner "forward_routed_message"; CallWrite],
     Ok (endpoint_of d hop,
         Wire.Seal o hop None HpkeAuth Ed25519 (Wire.RoutedMessage route p))).
Proof.
  intros Hd Hne Ho Po. pose proof (relation_knows d hop o Ho) as Kh.
  unfold SecureStore.forward_routed_message, SecureStore.call_inner.
  cbn [Inner.forward_routed_message native]. unfold forward_routed_message.
  eapply ss_query; [exact Hd| |reflexivity].
  unfold relation_of in Ho. unfold endpoint_of.
  destruct (vids d !! hop) as [rh|] eqn:Eh; [|discriminate Ho].
  rewrite Ho. destruct route as [|r0 rs]; [congruence|].
  by rewrite (seal_env_ok d o hop None _ Po Kh).
Qed.

Lemma ss_forward_dropoff (s : St) (d : Mem) (hop o : string) (p : Envelope) :
  disk s = Some d -> relation_of d hop = Some o ->
  is_private d hop = true -> knows d o = true ->
  SecureStore.forward_routed_message hop [] p s =
    (flushed d s, [CallRead; CallInner "forward_routed_message"; CallWrite],
     Ok (endpoint_of d o,
         Wire.Seal hop o None HpkeAuth Ed25519 (Wire.NestedMessage p))).
Proof.
  intros Hd Ho Ph Ko.
  unfold SecureStore.forward_routed_message, SecureStore.call_inner.
  cbn [Inner.forward_routed_message native]. unfold forward_routed_message.
  eapply ss_query; [exact Hd| |reflexivity].
  unfold relation_of in Ho.
  destruct (vids d !! hop) as [rh|] eqn:Eh; [|discriminate Ho].
  rewrite Ho. unfold endpoint_of.
  unfold knows in Ko. destruct (vids d !! o) as [ro|] eqn:Eo; [|discriminate Ko].
  unfold seal_env. rewrite Ph. unfold knows. by rewrite Eo.
Qed.

Lemma ss_open (s : St) (d d' : Mem) (e : Envelope) (f : FlatReceivedTspMessage)
    (msg : ReceivedTspMessage) :
  disk s = Some d -> open_env d e = Ok (d', f) -> from_flat f = Ok msg ->
  SecureStore.open_message e s =
    (flushed d' s, [CallRead; CallInner "open_message"; CallWrite], Ok msg).
Proof.
  intros Hd Ho Hf. unfold SecureStore.open_message.
  cbn [Inner.open_message native]. unfold open_message.
  exact (ss_on_mem _ _ _ s d d' f msg Hd Ho Hf).
Qed.

Ltac open_checks Ha Hb := cbn [open_env]; rewrite Ha, Hb; cbn [negb].

Lemma open_content (d : Mem) (a b : string) nc ct sg (msg : bytes) :
  knows d a = true -> is_private d b = true ->
  open_env d (Wire.Seal a b nc ct sg (Wire.Content msg)) =
    Ok (d, mkFlat ReceivedTspMessageVariant.GenericMessage a (Some b) nc
             (Some msg) (Some ct) (Some sg) None None None None None).
Proof. intros Ha Hb. open_checks Ha Hb. reflexivity. Qed.

Lemma open_routed (d : Mem) (a b h : string) (rest : list string) nc ct sg
    (inner : Envelope) :
  knows d a = true -> is_private d b = true ->
  open_env d (Wire.Seal a b nc ct sg (Wire.RoutedMessage (h :: rest) inner)) =
    Ok (d, mkFlat ReceivedTspMessageVariant.ForwardRequest a (Some b) None None
             None None (Some rest) None None (Some h) (Some inner)).
Proof. intros Ha Hb. open_checks Ha Hb. reflexivity. Qed.

Lemma open_nested (d : Mem) (a b : string) nc ct sg (inner : Envelope) :
  knows d a = true -> is_private d b = true ->
  open_env d (Wire.Seal a b nc ct sg (Wire.NestedMessage inner)) = open_env d inner.
Proof. intros Ha Hb. open_checks Ha Hb. reflexivity. Qed.

Lemma open_request (d : Mem) (a b : string) nc ct sg th rt :
  knows d a = true -> is_private d b = true ->
  open_env d (Wire.Seal a b nc ct sg (Wire.RequestRelationship th rt None)) =
    Ok (update_vid a (set_relation (Some b) (Requested th)) d,
        mkFlat ReceivedTspMessageVariant.RequestRelationship a (Some b)
          None None None None rt None (Some th) None None).
Proof. intros Ha Hb. open_checks Ha Hb. reflexivity. Qed.

Lemma open_request_nested (d : Mem) (a b n : string) nc ct sg th rt :
  knows d a = true -> is_private d b = true ->
  open_env d (Wire.Seal a b nc ct sg (Wire.RequestRelationship th rt (Some n))) =
    Ok (register_nested (Some n) a None d,
        mkFlat ReceivedTspMessageVariant.RequestRelationship a (Some b)
          None None None None rt (Some n) (Some th) None None).
Proof. intros Ha Hb. open_checks Ha Hb. reflexivity. Qed.

Lemma open_accept (d : Mem) (a b : string) nc ct sg th :
  knows d a = true -> is_private d b = true ->
  open_env d (Wire.Seal a b nc ct sg (Wire.AcceptRelationship th None)) =
    Ok (update_vid a (set_relation (Some b) (Established th)) d,
        mkFlat ReceivedTspMessageVariant.AcceptRelationship a (Some b)
          None None None None None None None None None).
Proof. intros Ha Hb. open_checks Ha Hb. reflexivity. Qed.

Lemma open_accept_nested (d : Mem) (a b n : string) nc ct sg th :
  knows d a = true -> is_private d b = true ->
  open_env d (Wire.Seal a b nc ct sg (Wire.AcceptRelationship th (Some n))) =
    Ok (register_nested (Some n) a (Some b) d,
        mkFlat ReceivedTspMessageVariant.AcceptRelationship a (Some b)
          None None None None None (Some n) None None None).
Proof. intros Ha Hb. open_checks Ha Hb. reflexivity. Qed.

Lemma ss_request (s : St) (d : Mem) (a b : string) :
  disk s = Some d -> is_private d a = true -> knows d b = true -> route_of d b = None ->
  SecureStore.make_relationship_request a b None s =
    (flushed (update_vid b (set_relation (Some a) (Requested (thread_of (counter d))))
                (bump d)) s,
     [CallRead; CallInner "make_relationship_request"; CallWrite],
     Ok (endpoint_of d b,
         Wire.Seal a b None HpkeAuth Ed25519
           (Wire.RequestRelationship (thread_of (counter d)) None None))).
Proof.
  intros Hd Ha Hb Hr. unfold SecureStore.make_relationship_request, SecureStore.call_inner.
  cbn [Inner.make_relationship_request native]. unfold make_relationship_request.
  eapply ss_on_mem; [exact Hd| |reflexivity].
  by rewrite (seal_payload_plain d a b None _ Ha Hb Hr).
Qed.

Lemma ss_accept (s : St) (d : Mem) (a b : string) (th : bytes) :
  disk s = Some d -> is_private d a = true -> knows d b = true -> route_of d b = None ->
  SecureStore.make_relationship_accept a b th None s =
    (flushed (update_vid b (set_relation (Some a) (Established th)) d) s,
     [CallRead; CallInner "make_relationship_accept"; CallWrite],
     Ok (endpoint_of d b,
         Wire.Seal a b None HpkeAuth Ed25519 (Wire.AcceptRelationship th None))).
Proof.
  intros Hd Ha Hb Hr. unfold SecureStore.make_relationship_accept, SecureStore.call_inner.
  cbn [Inner.make_relationship_accept native]. unfold make_relationship_accept.
  eapply ss_on_mem; [exact Hd| |reflexivity].
  by rewrite (seal_payload_plain d a b None _ Ha Hb Hr).
Qed.
End Steps.

(** C3 (spec-modelled native store): a requester [a], private in its
    store [sA] and knowing [b] directly, and a peer [b], private in its
    store [sB] and knowing [a] directly.  The bytes sealed by
    [make_relationship_request(a, b)] open in [sB] to a
    [RequestRelationship] from [a] carrying a thread id; the bytes sealed
    by [make_relationship_accept(b, a, thread_id)] then open in [sA] to an
    [AcceptRelationship] from [b]. *)
Theorem handshake_request_accept (sA sB : Model.St) (dA dB : Model.Mem) (a b : string) :
  Model.disk sA = Some dA -> Model.disk sB = Some dB ->
  Model.is_private dA a = true -> Model.knows dA b = true -> Model.route_of dA b = None ->
  Model.is_private dB b = true -> Model.knows dB a = true -> Model.route_of dB a = None ->
  exists sA1 tr1 url1 sealed1,
    SecureStore.make_relationship_request a b None sA = (sA1, tr1, Ok (url1, sealed1)) /\
  exists sB1 tr2 th,
    SecureStore.open_message sealed1 sB =
      (sB1, tr2, Ok (RequestRelationship a (Some b) None None (Some th))) /\
  exists sB2 tr3 url2 sealed2,
    SecureStore.make_relationship_accept b a th None sB1 = (sB2, tr3, Ok (url2, sealed2)) /\
  exists sA2 tr4,
    SecureStore.open_message sealed2 sA1 = (sA2, tr4, Ok (AcceptRelationship b (Some a) None)).
Proof.
  intros HdA HdB Pa Kb Rb Pb Ka Ra.
  set (th := Model.thread_of (Model.counter dA)).
  set (fA := Model.set_relation (Some a) (Model.Requested th)).
  set (dA1 := Model.update_vid b fA (Model.bump dA)).
  set (dB1 := Model.update_vid a (Model.set_relation (Some b) (Model.Requested th)) dB).
  assert (KA : Model.keeps_keys fA) by apply KeyFacts.set_relation_keeps.
  do 4 eexists. split; [exact (Steps.ss_request sA dA a b HdA Pa Kb Rb)|].
  do 3 eexists. split.
  { exact (Steps.ss_open sB dB dB1 _ _ _ HdB
             (Steps.open_request dB a b None _ _ th None Ka Pb) eq_refl). }
  do 4 eexists. split.
  { apply (Steps.ss_accept _ dB1); [apply ModelFacts.disk_flushed|..];
      unfold dB1;
      rewrite ?KeyFacts.update_is_private, ?KeyFacts.update_knows,
        ?KeyFacts.update_route_of by apply KeyFacts.set_relation_keeps; assumption. }
  do 2 eexists.
  assert (Kb1 : Model.knows dA1 b = true)
    by (unfold dA1; rewrite KeyFacts.update_knows by exact KA; exact Kb).
  assert (Pa1 : Model.is_private dA1 a = true)
    by (unfold dA1; rewrite KeyFacts.update_is_private by exact KA; exact Pa).
  exact (Steps.ss_open _ dA1 _ _ _ _ (ModelFacts.disk_flushed _ _)
           (Steps.open_accept dA1 b a None _ _ th Kb1 Pa1) eq_refl).
Qed.

Lemma handshake_request_accept_witness :
  let a := Scenarios.did "a" in
  let b := Scenarios.did "b" in
  exists sA1 tr1 url1 sealed1,
    SecureStore.make_relationship_request a b None Scenarios.pair_a =
      (sA1, tr1, Ok (url1, sealed1)) /\
  exists sB1 tr2 th,
    SecureStore.open_message sealed1 Scenarios.pair_b =
      (sB1, tr2, Ok (RequestRelationship a (Some b) None None (Some th))) /\
  exists sB2 tr3 url2 sealed2,
    SecureStore.make_relationship_accept b a th None sB1 = (sB2, tr3, Ok (url2, sealed2)) /\
  exists sA2 tr4,
    SecureStore.open_message sealed2 sA1 = (sA2, tr4, Ok (AcceptRelationship b (Some a) None)).
Proof.
  intros a b.
  apply (handshake_request_accept Scenarios.pair_a Scenarios.pair_b
           (Scenarios.wallet Scenarios.pair_a) (Scenarios.wallet Scenarios.pair_b) a b);
    vm_compute; reflexivity.
Defined.

(** C4 (spec-modelled native store): a message from [snd] to [rcv],
    whose route in the sender's store [sA] is [hop1 -> hop2 -> drop]
    (the three hops of [test_routed]: [b], [c], [mailbox_c]), each store
    holding the keys and relations that the set-up of the test creates.
    Opening the sealed bytes at the first hop ([sB]) gives exactly a
    [ForwardRequest]; forwarding it with [forward_routed_message] and
    opening at the second hop ([sC]) again gives a [ForwardRequest];
    forwarding that one (the drop-off) and opening at the receiver's
    store [sD] gives the [GenericMessage] from [snd] to [rcv] with the
    original bytes, no non-confidential data (the Python [seal_message]
    passes none), encrypted and signed. *)
Theorem routed_three_hops (sA sB sC sD : Model.St) (dA dB dC dD : Model.Mem)
    (snd rcv hop1 hop2 drop o1 o2 o3 : string) (m : bytes) :
  Model.disk sA = Some dA -> Model.disk sB = Some dB ->
  Model.disk sC = Some dC -> Model.disk sD = Some dD ->
  Model.is_private dA snd = true -> Model.knows dA rcv = true ->
  Model.route_of dA rcv = Some [hop1; hop2; drop] ->
  Model.relation_of dA hop1 = Some o1 -> Model.is_private dA o1 = true ->
  Model.knows dB o1 = true -> Model.is_private dB hop1 = true ->
  Model.relation_of dB hop2 = Some o2 -> Model.is_private dB o2 = true ->
  Model.knows dC o2 = true -> Model.is_private dC hop2 = true ->
  Model.relation_of dC drop = Some o3 -> Model.is_private dC drop = true ->
  Model.knows dC o3 = true ->
  Model.knows dD drop = true -> Model.is_private dD o3 = true ->
  Model.knows dD snd = true -> Model.is_private dD rcv = true ->
  exists sA1 tr1 url1 sealed1,
    SecureStore.seal_message snd rcv m sA = (sA1, tr1, Ok (url1, sealed1)) /\
  exists sB1 tr2 nh1 rt1 p1,
    SecureStore.open_message sealed1 sB =
      (sB1, tr2, Ok (ForwardRequest o1 (Some hop1) (Some nh1) (Some rt1) (Some p1))) /\
  exists sB2 tr3 url2 sealed2,
    SecureStore.forward_routed_message nh1 rt1 p1 sB1 = (sB2, tr3, Ok (url2, sealed2)) /\
  exists sC1 tr4 nh2 rt2 p2,
    SecureStore.open_message sealed2 sC =
      (sC1, tr4, Ok (ForwardRequest o2 (Some hop2) (Some nh2) (Some rt2) (Some p2))) /\
  exists sC2 tr5 url3 sealed3,
    SecureStore.forward_routed_message nh2 rt2 p2 sC1 = (sC2, tr5, Ok (url3, sealed3)) /\
  exists sD1 tr6 ct sg,
    SecureStore.open_message sealed3 sD =
      (sD1, tr6, Ok (GenericMessage snd (Some rcv) None m (Some ct) (Some sg))) /\
    ct <> Plaintext /\ sg <> NoSignature.
Proof.
  intros HdA HdB HdC HdD Ps Kr Rr Ro1 Po1 Ko1 Ph1 Ro2 Po2 Ko2 Ph2 Ro3 Pdr Ko3
    Kdr Po3 Ks Pr.
  set (inner := Wire.Seal snd rcv None HpkeAuth Ed25519 (Wire.Content m)).
  do 4 eexists.
  split; [exact (Steps.ss_seal_routed sA dA snd rcv hop1 o1 [hop2; drop] m
                   HdA Ps Kr Rr Ro1 Po1)|].
  do 5 eexists. split.
  { exact (Steps.ss_open sB dB dB _ _ _ HdB
             (Steps.open_routed dB o1 hop1 hop2 [drop] None _ _ inner Ko1 Ph1) eq_refl). }
  do 4 eexists. split.
  { exact (Steps.ss_forward_hop _ dB hop2 o2 [drop] _ (ModelFacts.disk_flushed _ _)
             ltac:(discriminate) Ro2 Po2). }
  do 5 eexists. split.
  { exact (Steps.ss_open sC dC dC _ _ _ HdC
             (Steps.open_routed dC o2 hop2 drop [] None _ _ _ Ko2 Ph2) eq_refl). }
  do 4 eexists. split.
  { exact (Steps.ss_forward_dropoff _ dC drop o3 _ (ModelFacts.disk_flushed _ _)
             Ro3 Pdr Ko3). }
  do 4 eexists. split.
  { refine (Steps.ss_open sD dD dD _ _ _ HdD _ _).
    - rewrite (Steps.open_nested dD drop o3 None _ _ inner Kdr Po3).
      exact (Steps.open_content dD snd rcv None _ _ m Ks Pr).
    - reflexivity. }
  split; discriminate.
Qed.

Lemma routed_three_hops_witness :
  let d := Scenarios.did in
  exists sA1 tr1 url1 sealed1,
    SecureStore.seal_message (d "sneaky_a") (d "sneaky_d") Scenarios.hello_world
      Scenarios.routed_a = (sA1, tr1, Ok (url1, sealed1)) /\
  exists sB1 tr2 nh1 rt1 p1,
    SecureStore.open_message sealed1 Scenarios.routed_b =
      (sB1, tr2, Ok (ForwardRequest (d "nette_a") (Some (d "b")) (Some nh1) (Some rt1) (Some p1))) /\
  exists sB2 tr3 url2 sealed2,
    SecureStore.forward_routed_message nh1 rt1 p1 sB1 = (sB2, tr3, Ok (url2, sealed2)) /\
  exists sC1 tr4 nh2 rt2 p2,
    SecureStore.open_message sealed2 Scenarios.routed_c =
      (sC1, tr4, Ok (ForwardRequest (d "b") (Some (d "c")) (Some nh2) (Some rt2) (Some p2))) /\
  exists sC2 tr5 url3 sealed3,
    SecureStore.forward_routed_message nh2 rt2 p2 sC1 = (sC2, tr5, Ok (url3, sealed3)) /\
  exists sD1 tr6 ct sg,
    SecureStore.open_message sealed3 Scenarios.routed_d =
      (sD1, tr6, Ok (GenericMessage (d "sneaky_a") (Some (d "sneaky_d")) None
                       Scenarios.hello_world (Some ct) (Some sg))) /\
    ct <> Plaintext /\ sg <> NoSignature.
Proof.
  intros d.
  apply (routed_three_hops Scenarios.routed_a Scenarios.routed_b Scenarios.routed_c
           Scenarios.routed_d (Scenarios.wallet Scenarios.routed_a)
           (Scenarios.wallet Scenarios.routed_b) (Scenarios.wallet Scenarios.routed_c)
           (Scenarios.wallet Scenarios.routed_d) (d "sneaky_a") (d "sneaky_d") (d "b")
           (d "c") (d "mailbox_c") (d "nette_a") (d "b") (d "nette_d"));
    vm_compute; reflexivity.
Defined.

(** Minting and registering nested VIDs. *)
Module NestedFacts.
Import Model ModelFacts KeyFacts Steps.

Lemma knows_dom (m : Mem) (v : string) :
  knows m v = true <-> v ∈ (dom (vids m) : gset string).
Proof.
  unfold knows. rewrite elem_of_dom.
  destruct (vids m !! v); split; intros H; try done; by destruct H.
Qed.

Lemma fresh_unknown (m : Mem) : knows m (fresh_vid m) = false.
Proof.
  destruct (knows m (fresh_vid m)) eqn:E; [|reflexivity].
  apply knows_dom in E. exfalso. exact (is_fresh _ E).
Qed.

Lemma fresh_ne (m : Mem) (v : string) : knows m v = true -> fresh_vid m <> v.
Proof. intros Hv <-. by rewrite fresh_unknown in Hv. Qed.

Lemma mint_other (p : string) (rel : option string) (m : Mem) (w : string) :
  fresh_vid m <> w ->
  is_private (fst (mint_nested p rel m)) w = is_private m w /\
  knows (fst (mint_nested p rel m)) w = knows m w /\
  route_of (fst (mint_nested p rel m)) w = route_of m w /\
  endpoint_of (fst (mint_nested p rel m)) w = endpoint_of m w.
Proof.
  intros Hne.
  destruct (insert_other (fresh_vid m) w
              (mkVidRec (fresh_vid m) (endpoint_of m p) Private None rel Unrelated
                 (Some p) None) m Hne) as (H1 & H2 & H3 & _ & H5).
  split; [exact H1|split; [exact H2|split; [exact H3|exact H5]]].
Qed.

Lemma mint_self (p : string) (rel : option string) (m : Mem) :
  is_private (fst (mint_nested p rel m)) (fresh_vid m) = true /\
  knows (fst (mint_nested p rel m)) (fresh_vid m) = true.
Proof. unfold mint_nested, is_private, knows; cbn. by rewrite lookup_insert_eq. Qed.

Lemma register_other (n p w : string) (rel : option string) (m : Mem) : n <> w ->
  is_private (register_nested (Some n) p rel m) w = is_private m w /\
  knows (register_nested (Some n) p rel m) w = knows m w /\
  route_of (register_nested (Some n) p rel m) w = route_of m w.
Proof.
  intros Hne. unfold register_nested.
  destruct (insert_other n w (mkVidRec n "" Verified None rel Unrelated (Some p) None)
              m Hne) as (H1 & H2 & H3 & _). auto.
Qed.

Lemma register_self (n p : string) (rel : option string) (m : Mem) :
  knows (register_nested (Some n) p rel m) n = true /\
  route_of (register_nested (Some n) p rel m) n = None.
Proof. unfold register_nested, knows, route_of; cbn. by rewrite lookup_insert_eq. Qed.

Lemma ss_nested_request (s : St) (d : Mem) (parent rcv : string) :
  disk s = Some d -> is_private d parent = true -> knows d rcv = true ->
  route_of d rcv = None ->
  SecureStore.make_nested_relationship_request parent rcv s =
    (flushed (update_vid rcv (set_relation (Some parent)
                                (Requested (thread_of (counter d))))
                (fst (mint_nested parent None (bump d)))) s,
     [CallRead; CallInner "make_nested_relationship_request"; CallWrite],
     Ok ((endpoint_of d rcv,
          Wire.Seal parent rcv None HpkeAuth Ed25519
            (Wire.RequestRelationship (thread_of (counter d)) None
               (Some (fresh_vid d)))),
         mkOwnedVid (fresh_vid d) (endpoint_of d parent))).
Proof.
  intros Hd Hp Hr Hrt.
  assert (Hnr : fresh_vid (bump d) <> rcv) by exact (fresh_ne d rcv Hr).
  assert (Hnp : fresh_vid (bump d) <> parent)
    by exact (fresh_ne d parent (private_knows d parent Hp)).
  destruct (mint_other parent None (bump d) rcv Hnr) as (_ & K1 & R1 & E1).
  destruct (mint_other parent None (bump d) parent Hnp) as (P1 & _).
  unfold SecureStore.make_nested_relationship_request, SecureStore.call_inner.
  cbn [Inner.make_nested_relationship_request native].
  unfold make_nested_relationship_request.
  eapply ss_on_mem; [exact Hd| |reflexivity].
  rewrite Hp. cbn [negb].
  change (mint_nested parent None (bump d))
    with (fst (mint_nested parent None (bump d)),
          mkOwnedVid (fresh_vid d) (endpoint_of d parent)).
  cbv iota beta.
  rewrite (seal_payload_plain _ parent rcv None _); [|rewrite P1; exact Hp
    |rewrite K1; exact Hr|rewrite R1; exact Hrt].
  rewrite E1. reflexivity.
Qed.

Lemma ss_nested_accept (s : St) (d : Mem) (snd rcv : string) (th : bytes) :
  disk s = Some d -> is_private d snd = true -> knows d rcv = true ->
  route_of d rcv = None ->
  SecureStore.make_nested_relationship_accept snd rcv th s =
    (flushed (update_vid rcv (set_relation (Some (fresh_vid d)) (Established th))
                (fst (mint_nested snd (Some rcv) d))) s,
     [CallRead; CallInner "make_nested_relationship_accept"; CallWrite],
     Ok ((endpoint_of d rcv,
          Wire.Seal snd rcv None HpkeAuth Ed25519
            (Wire.AcceptRelationship th (Some (fresh_vid d)))),
         mkOwnedVid (fresh_vid d) (endpoint_of d snd))).
Proof.
  intros Hd Hp Hr Hrt.
  assert (Hnr : fresh_vid d <> rcv) by exact (fresh_ne d rcv Hr).
  assert (Hnp : fresh_vid d <> snd)
    by exact (fresh_ne d snd (private_knows d snd Hp)).
  destruct (mint_other snd (Some rcv) d rcv Hnr) as (_ & K1 & R1 & E1).
  destruct (mint_other snd (Some rcv) d snd Hnp) as (P1 & _).
  unfold SecureStore.make_nested_relationship_accept, SecureStore.call_inner.
  cbn [Inner.make_nested_relationship_accept native].
  unfold make_nested_relationship_accept.
  eapply ss_on_mem; [exact Hd| |reflexivity].
  rewrite Hp. cbn [negb].
  change (mint_nested snd (Some rcv) d)
    with (fst (mint_nested snd (Some rcv) d),
          mkOwnedVid (fresh_vid d) (endpoint_of d snd)).
  cbv iota beta.
  rewrite (seal_payload_plain _ snd rcv None _); [|rewrite P1; exact Hp
    |rewrite K1; exact Hr|rewrite R1; exact Hrt].
  rewrite E1. reflexivity.
Qed.
End NestedFacts.

(** C5 (spec-modelled native store): [a], private in its store [sA] and
    knowing [b] directly; [b], private in its store [sB] and knowing [a].
    [make_nested_relationship_request(a, b)] returns a VID unknown to
    [sA] before the call, different from [a] and [b], private in [sA]
    after it, and equal to the [nested_vid] of the [RequestRelationship]
    that [sB] opens.  [make_nested_relationship_accept(b, nested_a,
    thread_id)] returns a VID unknown to [sB] before the handshake,
    different from [nested_a], [a] and [b], private in [sB] after the
    call, and equal to the [nested_vid] of the [AcceptRelationship] that
    [sA] opens.  A message sealed by [sA] from [nested_a] to [nested_b]
    then opens in [sB] to the [GenericMessage] between the two nested
    VIDs. *)
Theorem nested_handshake (sA sB : Model.St) (dA dB : Model.Mem) (a b : string) (m : bytes) :
  Model.disk sA = Some dA -> Model.disk sB = Some dB ->
  Model.is_private dA a = true -> Model.knows dA b = true -> Model.route_of dA b = None ->
  Model.knows dB a = true -> Model.is_private dB b = true ->
  exists sA1 tr1 url1 sealed1 nested_a,
    SecureStore.make_nested_relationship_request a b sA =
      (sA1, tr1, Ok ((url1, sealed1), nested_a)) /\
    Model.knows dA (identifier nested_a) = false /\
    identifier nested_a <> a /\ identifier nested_a <> b /\
    (exists dA1, Model.disk sA1 = Some dA1 /\ Model.is_private dA1 (identifier nested_a) = true) /\
  exists sB1 tr2 th,
    SecureStore.open_message sealed1 sB =
      (sB1, tr2, Ok (RequestRelationship a (Some b) None (Some (identifier nested_a)) (Some th))) /\
  exists sB2 tr3 url2 sealed2 nested_b,
    SecureStore.make_nested_relationship_accept b (identifier nested_a) th sB1 =
      (sB2, tr3, Ok ((url2, sealed2), nested_b)) /\
    Model.knows dB (identifier nested_b) = false /\
    identifier nested_b <> identifier nested_a /\
    identifier nested_b <> a /\ identifier nested_b <> b /\
    (exists dB2, Model.disk sB2 = Some dB2 /\ Model.is_private dB2 (identifier nested_b) = true) /\
  exists sA2 tr4,
    SecureStore.open_message sealed2 sA1 =
      (sA2, tr4, Ok (AcceptRelationship b (Some (identifier nested_a))
                       (Some (identifier nested_b)))) /\
  exists sA3 tr5 url3 sealed3,
    SecureStore.seal_message (identifier nested_a) (identifier nested_b) m sA2 =
      (sA3, tr5, Ok (url3, sealed3)) /\
  exists sB3 tr6 ct sg,
    SecureStore.open_message sealed3 sB2 =
      (sB3, tr6, Ok (GenericMessage (identifier nested_a) (Some (identifier nested_b))
                       None m (Some ct) (Some sg))) /\
    ct <> Plaintext /\ sg <> NoSignature.
Proof.
  intros HdA HdB Pa Kb Rb Ka Pb.
  pose proof (KeyFacts.private_knows dA a Pa) as KAa.
  pose proof (KeyFacts.private_knows dB b Pb) as KBb.
  set (n := Model.fresh_vid dA).
  set (th := Model.thread_of (Model.counter dA)).
  set (mA1 := fst (Model.mint_nested a None (Model.bump dA))).
  set (dA1 := Model.update_vid b (Model.set_relation (Some a) (Model.Requested th)) mA1).
  assert (Nfresh : Model.knows dA n = false) by apply NestedFacts.fresh_unknown.
  assert (Nna : n <> a) by exact (NestedFacts.fresh_ne dA a KAa).
  assert (Nnb : n <> b) by exact (NestedFacts.fresh_ne dA b Kb).
  assert (PA1n : Model.is_private dA1 n = true).
  { unfold dA1. rewrite KeyFacts.update_is_private by apply KeyFacts.set_relation_keeps.
    exact (proj1 (NestedFacts.mint_self a None (Model.bump dA))). }
  assert (KA1b : Model.knows dA1 b = true).
  { unfold dA1. rewrite KeyFacts.update_knows by apply KeyFacts.set_relation_keeps.
    unfold mA1. rewrite (proj1 (proj2 (NestedFacts.mint_other a None (Model.bump dA) b Nnb))).
    exact Kb. }
  do 5 eexists.
  split; [exact (NestedFacts.ss_nested_request sA dA a b HdA Pa Kb Rb)|].
  cbn [identifier].
  split; [exact Nfresh|]. split; [exact Nna|]. split; [exact Nnb|].
  split; [exists dA1; split; [reflexivity|exact PA1n]|].
  set (dB1 := Model.register_nested (Some n) a None dB).
  destruct (NestedFacts.register_other n a b None dB Nnb) as (PB1b & _ & _).
  destruct (NestedFacts.register_other n a a None dB Nna) as (_ & KB1a & _).
  destruct (NestedFacts.register_self n a None dB) as (KB1n & RB1n).
  fold dB1 in PB1b, KB1a, KB1n, RB1n.
  do 3 eexists. split.
  { exact (Steps.ss_open sB dB dB1 _ _ _ HdB
             (Steps.open_request_nested dB a b n None _ _ th None Ka Pb) eq_refl). }
  set (n2 := Model.fresh_vid dB1).
  set (mB2 := fst (Model.mint_nested b (Some n) dB1)).
  set (dB2 := Model.update_vid n (Model.set_relation (Some n2) (Model.Established th)) mB2).
  assert (N2n : n2 <> n) by exact (NestedFacts.fresh_ne dB1 n KB1n).
  assert (N2a : n2 <> a) by exact (NestedFacts.fresh_ne dB1 a (eq_trans KB1a Ka)).
  assert (PB1b' : Model.is_private dB1 b = true) by exact (eq_trans PB1b Pb).
  assert (N2b : n2 <> b)
    by exact (NestedFacts.fresh_ne dB1 b (KeyFacts.private_knows _ b PB1b')).
  assert (PB2n2 : Model.is_private dB2 n2 = true).
  { unfold dB2. rewrite KeyFacts.update_is_private by apply KeyFacts.set_relation_keeps.
    exact (proj1 (NestedFacts.mint_self b (Some n) dB1)). }
  do 5 eexists. split.
  { exact (NestedFacts.ss_nested_accept _ dB1 b n th (ModelFacts.disk_flushed _ _)
             PB1b' KB1n RB1n). }
  cbn [identifier]. fold n2.
  split.
  { destruct (NestedFacts.register_other n a n2 None dB (not_eq_sym N2n)) as (_ & K & _).
    fold dB1 in K. rewrite <- K. apply NestedFacts.fresh_unknown. }
  split; [exact N2n|]. split; [exact N2a|]. split; [exact N2b|].
  split; [exists dB2; split; [reflexivity|exact PB2n2]|].
  set (dA2 := Model.register_nested (Some n2) b (Some n) dA1).
  do 2 eexists. split.
  { exact (Steps.ss_open _ dA1 dA2 _ _ _ (ModelFacts.disk_flushed _ _)
             (Steps.open_accept_nested dA1 b n n2 None _ _ th KA1b PA1n) eq_refl). }
  destruct (NestedFacts.register_other n2 b n (Some n) dA1 N2n) as (PA2n & _ & _).
  destruct (NestedFacts.register_self n2 b (Some n) dA1) as (KA2n2 & RA2n2).
  fold dA2 in PA2n, KA2n2, RA2n2.
  do 4 eexists. split.
  { exact (Steps.ss_seal_plain _ dA2 n n2 m (ModelFacts.disk_flushed _ _)
             (eq_trans PA2n PA1n) KA2n2 RA2n2). }
  assert (KB2n : Model.knows dB2 n = true).
  { unfold dB2. rewrite KeyFacts.update_knows by apply KeyFacts.set_relation_keeps.
    unfold mB2. rewrite (proj1 (proj2 (NestedFacts.mint_other b (Some n) dB1 n N2n))).
    exact KB1n. }
  do 4 eexists. split.
  { exact (Steps.ss_open _ dB2 dB2 _ _ _ (ModelFacts.disk_flushed _ _)
             (Steps.open_content dB2 n n2 None _ _ m KB2n PB2n2) eq_refl). }
  split; discriminate.
Qed.

Lemma nested_handshake_witness :
  let a := Scenarios.did "a" in
  let b := Scenarios.did "b" in
  let m := Scenarios.hello_world in
  let dA := Scenarios.wallet Scenarios.pair_a in
  let dB := Scenarios.wallet Scenarios.pair_b in
  exists sA1 tr1 url1 sealed1 nested_a,
    SecureStore.make_nested_relationship_request a b Scenarios.pair_a =
      (sA1, tr1, Ok ((url1, sealed1), nested_a)) /\
    Model.knows dA (identifier nested_a) = false /\
    identifier nested_a <> a /\ identifier nested_a <> b /\
    (exists dA1, Model.disk sA1 = Some dA1 /\ Model.is_private dA1 (identifier nested_a) = true) /\
  exists sB1 tr2 th,
    SecureStore.open_message sealed1 Scenarios.pair_b =
      (sB1, tr2, Ok (RequestRelationship a (Some b) None (Some (identifier nested_a)) (Some th))) /\
  exists sB2 tr3 url2 sealed2 nested_b,
    SecureStore.make_nested_relationship_accept b (identifier nested_a) th sB1 =
      (sB2, tr3, Ok ((url2, sealed2), nested_b)) /\
    Model.knows dB (identifier nested_b) = false /\
    identifier nested_b <> identifier nested_a /\
    identifier nested_b <> a /\ identifier nested_b <> b /\
    (exists dB2, Model.disk sB2 = Some dB2 /\ Model.is_private dB2 (identifier nested_b) = true) /\
  exists sA2 tr4,
    SecureStore.open_message sealed2 sA1 =
      (sA2, tr4, Ok (AcceptRelationship b (Some (identifier nested_a))
                       (Some (identifier nested_b)))) /\
  exists sA3 tr5 url3 sealed3,
    SecureStore.seal_message (identifier nested_a) (identifier nested_b) m sA2 =
      (sA3, tr5, Ok (url3, sealed3)) /\
  exists sB3 tr6 ct sg,
    SecureStore.open_message sealed3 sB2 =
      (sB3, tr6, Ok (GenericMessage (identifier nested_a) (Some (identifier nested_b))
                       None m (Some ct) (Some sg))) /\
    ct <> Plaintext /\ sg <> NoSignature.
Proof.
  intros a b m dA dB.
  apply (nested_handshake Scenarios.pair_a Scenarios.pair_b dA dB a b m);
    vm_compute; reflexivity.
Defined.

(** Sealing a content payload with no non-confidential data. *)
Module SealFacts.
Import Model.

Lemma seal_env_nonconf (m : Mem) (a b : string) (p : Wire.Payload) (e : Envelope) :
  seal_env m a b None p = Ok e ->
  e = Wire.Seal a b None HpkeAuth Ed25519 p.
Proof.
  unfold seal_env, terr.
  destruct (is_private m a); [|discriminate].
  destruct (knows m b); [|discriminate]. congruence.
Qed.

Lemma seal_content_nonconf (m : Mem) (a b : string) (msg : bytes) (u : string)
    (e : Envelope) :
  seal_message_payload m a b None (Wire.Content msg) = Ok (u, e) ->
  Forall (fun x => x = None) (all_nonconf e).
Proof.
  unfold seal_message_payload, terr.
  destruct (vids m !! b) as [rb|]; [|discriminate].
  destruct (vr_route rb) as [[|h hops]|].
  - discriminate.
  - destruct (seal_env m a b None (Wire.Content msg)) as [inner|x] eqn:Ei;
      [|discriminate]. cbn [res_bind].
    apply seal_env_nonconf in Ei as ->.
    destruct (vids m !! h) as [hr|]; [|discriminate].
    destruct (vr_relation hr) as [o|]; [|discriminate].
    destruct (seal_env m o h None _) as [outer|x] eqn:Eo; [|discriminate].
    apply seal_env_nonconf in Eo as ->. cbn [res_bind].
    intros H. injection H as _ <-. repeat constructor.
  - destruct (seal_env m a b None (Wire.Content msg)) as [e'|x] eqn:Ei;
      [|discriminate]. apply seal_env_nonconf in Ei as ->. cbn [res_bind].
    intros H. injection H as _ <-. repeat constructor.
Qed.
End SealFacts.

(** C6 (as stated: [seal_message] takes an optional
    [nonconfidential_data] argument, carried in the envelope) fails: the
    method has the three parameters [sender], [receiver], [message], and
    calls the native [seal_message] without [nonconfidential_data].  Over
    a native store that puts the [nonconfidential_data] it receives into
    the envelope, the envelope of [seal_message(alice, bob, b"hello
    world")] carries none: the Python call has no way to supply it. *)
Lemma seal_message_nonconfidential_counterexample :
  snd (@SecureStore.seal_message unit Double.sealing (Scenarios.did "alice")
         (Scenarios.did "bob") Scenarios.hello_world tt) =
    Ok ("", Wire.Seal (Scenarios.did "alice") (Scenarios.did "bob") None Plaintext NoSignature
              (Wire.Content Scenarios.hello_world)) /\
  all_nonconf (Wire.Seal (Scenarios.did "alice") (Scenarios.did "bob") None Plaintext
                 NoSignature (Wire.Content Scenarios.hello_world)) = [None].
Proof. split; reflexivity. Qed.

(** C6 (amended): [seal_message(sender, receiver, message)] calls the
    native [seal_message] with [nonconfidential_data] left to its
    default [None], inside the wallet, and returns its result, the pair
    [(transport_url, sealed_bytes)]; over the model, every layer of the
    sealed envelope then carries no non-confidential data. *)
Theorem seal_message_without_nonconfidential_data (a b : string) (m : bytes) :
  (forall (S : Type) (I : Inner.TspStore S),
     runs_in_wallet "seal_message" (Inner.seal_message a b m None) Ok
       (SecureStore.seal_message a b m)) /\
  (forall s : Model.St,
     match SecureStore.seal_message a b m s with
     | (_, _, Ok (_, sealed)) => Forall (fun x => x = None) (all_nonconf sealed)
     | (_, _, Raise _) => True
     end).
Proof.
  split.
  - intros S I. apply with_wallet_call_then.
  - intros s. unfold SecureStore.seal_message, SecureStore.call_inner.
    rewrite (with_wallet_call_then "seal_message" _ Ok s).
    cbn [Inner.read_wallet Inner.write_wallet Inner.seal_message Model.native].
    unfold Model.read_wallet. destruct (Model.disk s) as [d|]; [|exact I].
    unfold Model.seal_message, Model.query, Model.on_mem. cbn [Model.mem Model.set_mem].
    destruct (Model.seal_message_payload d a b None (Wire.Content m)) as [[u e]|x] eqn:E;
      cbn; [exact (SealFacts.seal_content_nonconf d a b m u e E)|exact I].
Qed.

(** How the calls of a history change the alias table. *)
Module AliasFacts.
Import Model ModelFacts.

Lemma update_aliases (v : string) (f : VidRec -> VidRec) (m : Mem) :
  aliases (update_vid v f m) = aliases m.
Proof. unfold update_vid. by destruct (vids m !! v). Qed.

Lemma register_aliases (nv : option string) (p : string) (rel : option string) (m : Mem) :
  aliases (register_nested nv p rel m) = aliases m.
Proof. by destruct nv. Qed.

Lemma open_env_aliases : forall (e : Envelope) (m m' : Mem) (f : FlatReceivedTspMessage),
  open_env m e = Ok (m', f) -> aliases m' = aliases m.
Proof.
  fix IH 1. intros [snd rcv nc ct sg p] m m' f. cbn [open_env].
  destruct (negb (knows m snd)); [discriminate|].
  destruct (negb (is_private m rcv)); [discriminate|].
  destruct p as [msg|th rt [n|]|th [n|]|th|[|h rest] inner|inner];
    try discriminate; try (intros H; injection H as <- _);
    try apply update_aliases; try reflexivity.
  apply IH.
Qed.

Lemma on_mem_unset {A} (al : string) (g : Mem -> Res (Mem * A)) (s : St) :
  (forall m m' a, g m = Ok (m', a) -> alias_unset al m -> alias_unset al m') ->
  alias_unset al (mem s) -> alias_unset al (mem (fst (on_mem g s))).
Proof.
  intros Hg Hs. unfold on_mem.
  destruct (g (mem s)) as [[m' a]|x] eqn:E; [exact (Hg _ _ _ E Hs)|exact Hs].
Qed.

Lemma query_unset {A} (al : string) (g : Mem -> Res A) (s : St) :
  alias_unset al (mem s) -> alias_unset al (mem (fst (query g s))).
Proof.
  apply on_mem_unset. intros m m' a. destruct (g m); [|discriminate].
  intros H; injection H as <- _. tauto.
Qed.

Lemma add_vid_unset (al : string) role vid alias meta m m' u :
  match alias with Some a => String.eqb a al = false | None => True end ->
  add_vid role vid alias meta m = Ok (m', u) -> alias_unset al m -> alias_unset al m'.
Proof.
  intros Ha. unfold add_vid, terr.
  destruct (match vids m !! identifier vid with
            | Some r => negb (role_eqb (vr_role r) role) | None => false end);
    [discriminate|].
  intros H; injection H as <- _. unfold alias_unset, add_alias.
  destruct alias as [a|]; [|tauto]. cbn [aliases set_aliases set_vids].
  apply String.eqb_neq in Ha. intros Hu. by rewrite lookup_insert_ne.
Qed.

(** A call made with the wallet holding [d] leaves a wallet. *)
Lemma wallet_step {A B} (al : string) (name : string) (f : St -> St * Res A)
    (k : A -> Res B) (s : St) (d : Mem) :
  disk s = Some d -> alias_unset al (mem (fst (f (set_mem d s)))) ->
  exists d', disk (state_of (SecureStore.with_wallet (SecureStore.call_then name f k) s))
               = Some d' /\ alias_unset al d'.
Proof.
  intros Hd Hu. rewrite (in_wallet name f k s d Hd).
  destruct (f (set_mem d s)) as [s2 r]. cbn. eauto.
Qed.

Lemma op_unset (al : string) (o : Op) (s : St) (d : Mem) :
  disk s = Some d -> alias_unset al d -> registers al o = false ->
  exists d', disk (run_op o s) = Some d' /\ alias_unset al d'.
Proof.
  intros Hd Hu Hr.
  assert (Hm : alias_unset al (mem (set_mem d s))) by exact Hu.
  destruct o as [v a|v a|did a|v|key val|key|v rt|a b msg|e|a b|a b th];
    cbn [run_op]; unfold SecureStore.add_private_vid, SecureStore.add_verified_owned_vid,
      SecureStore.verify_vid, SecureStore.forget_vid, SecureStore.store_kv,
      SecureStore.remove_kv, SecureStore.set_route_for_vid, SecureStore.seal_message,
      SecureStore.open_message, SecureStore.make_relationship_request,
      SecureStore.make_relationship_accept, SecureStore.call_inner;
    apply (wallet_step al _ _ _ s d Hd);
    cbn [Inner.add_private_vid Inner.add_verified_owned_vid Inner.verify_vid
      Inner.forget_vid Inner.store_kv Inner.remove_kv Inner.set_route_for_vid
      Inner.seal_message Inner.open_message Inner.make_relationship_request
      Inner.make_relationship_accept native].
  - apply on_mem_unset; [|exact Hm]. intros m m' u.
    apply add_vid_unset. destruct a; [exact Hr|exact I].
  - apply on_mem_unset; [|exact Hm]. intros m m' u.
    apply add_vid_unset. destruct a; [exact Hr|exact I].
  - unfold verify_vid. destruct (resolver (set_mem d s) !! did) as [ep|]; [|exact Hm].
    apply on_mem_unset; [|exact Hm]. intros m m' u.
    destruct (add_vid Verified (mkOwnedVid did ep) a None m) as [[m1 []]|x] eqn:E;
      [|discriminate].
    cbn. intros H; injection H as <- _.
    refine (add_vid_unset al Verified (mkOwnedVid did ep) a None m m1 tt _ E).
    destruct a; [exact Hr|exact I].
  - apply on_mem_unset; [|exact Hm]. intros m m' u.
    destruct (knows m v); [|discriminate]. intros H; injection H as <- _.
    unfold alias_unset; cbn. intros Hn. apply map_lookup_filter_None. by left.
  - apply on_mem_unset; [|exact Hm]. intros m m' u H; injection H as <- _. tauto.
  - apply on_mem_unset; [|exact Hm]. intros m m' u H; injection H as <- _. tauto.
  - apply on_mem_unset; [|exact Hm]. intros m m' u.
    destruct (knows m v); [|discriminate]. intros H; injection H as <- _.
    unfold alias_unset. by rewrite update_aliases.
  - apply query_unset, Hm.
  - apply on_mem_unset; [|exact Hm]. intros m m' f H.
    unfold alias_unset. by rewrite (open_env_aliases e m m' f H).
  - apply on_mem_unset; [|exact Hm]. intros m m' u. cbv zeta.
    destruct (seal_message_payload m a b None _); [|discriminate].
    cbn. intros H; injection H as <- _. unfold alias_unset. by rewrite update_aliases.
  - apply on_mem_unset; [|exact Hm]. intros m m' u. cbv zeta.
    destruct (seal_message_payload m a b None _); [|discriminate].
    cbn. intros H; injection H as <- _. unfold alias_unset. by rewrite update_aliases.
Qed.

Lemma ops_unset (al : string) (ops : list Op) : forall (s : St) (d : Mem),
  disk s = Some d -> alias_unset al d ->
  forallb (fun o => negb (registers al o)) ops = true ->
  exists d', disk (run_ops ops s) = Some d' /\ alias_unset al d'.
Proof.
  induction ops as [|o ops IH]; intros s d Hd Hu Hall; [eauto|].
  cbn [forallb] in Hall. apply andb_prop in Hall as [Ho Hall].
  apply negb_true_iff in Ho.
  destruct (op_unset al o s d Hd Hu Ho) as (d' & Hd' & Hu').
  exact (IH (run_op o s) d' Hd' Hu' Hall).
Qed.

(** [resolve_alias] twice on a store holding the wallet [d]. *)
Lemma resolve_twice (al : string) (s : St) (d : Mem) :
  disk s = Some d ->
  SecureStore.resolve_alias al s =
    (flushed d s, [CallRead; CallInner "resolve_alias"; CallWrite], Ok (aliases d !! al)) /\
  SecureStore.resolve_alias al (flushed d s) =
    (flushed d s, [CallRead; CallInner "resolve_alias"; CallWrite], Ok (aliases d !! al)).
Proof.
  intros Hd. unfold SecureStore.resolve_alias, SecureStore.call_inner.
  cbn [Inner.resolve_alias native]. unfold resolve_alias. split.
  - by apply (Steps.ss_query _ _ Ok s d (aliases d !! al)).
  - by apply (Steps.ss_query _ _ Ok (flushed d s) d (aliases d !! al)).
Qed.
End AliasFacts.

(** C9 (spec-modelled native store): [resolve_alias(alias)] on a store
    whose wallet holds [d] returns the VID that [d] maps [alias] to
    ([None] if it maps it to nothing), and leaves a store on which the
    same call returns the same result and the same store again, so every
    further repetition agrees.  From a new store, after any history of
    calls none of which registers [alias], [resolve_alias(alias)] returns
    [None], again on every repetition. *)
Theorem resolve_alias_repeatable (al : string) :
  (forall (s : Model.St) (d : Model.Mem), Model.disk s = Some d ->
     exists s1 tr1 tr2,
       SecureStore.resolve_alias al s = (s1, tr1, Ok (Model.aliases d !! al)) /\
       SecureStore.resolve_alias al s1 = (s1, tr2, Ok (Model.aliases d !! al))) /\
  (forall ops : list Op, forallb (fun o => negb (registers al o)) ops = true ->
     exists s1 tr1 tr2,
       SecureStore.resolve_alias al (run_ops ops Model.new_store) = (s1, tr1, Ok None) /\
       SecureStore.resolve_alias al s1 = (s1, tr2, Ok None)).
Proof.
  assert (Twice : forall (s : Model.St) (d : Model.Mem), Model.disk s = Some d ->
     exists s1 tr1 tr2,
       SecureStore.resolve_alias al s = (s1, tr1, Ok (Model.aliases d !! al)) /\
       SecureStore.resolve_alias al s1 = (s1, tr2, Ok (Model.aliases d !! al))).
  { intros s d Hd. destruct (AliasFacts.resolve_twice al s d Hd) as [H1 H2]. eauto. }
  split; [exact Twice|].
  intros ops Hops.
  destruct (AliasFacts.ops_unset al ops Model.new_store Model.empty_mem eq_refl
              eq_refl Hops) as (d & Hd & Hu).
  unfold alias_unset in Hu. rewrite <- Hu. exact (Twice _ d Hd).
Qed.

Lemma resolve_alias_repeatable_witness :
  let s := run_ops Scenarios.alias_history Model.new_store in
  (exists s1 tr1 tr2,
     SecureStore.resolve_alias "alice" s = (s1, tr1, Ok (Some (Scenarios.did "alice"))) /\
     SecureStore.resolve_alias "alice" s1 = (s1, tr2, Ok (Some (Scenarios.did "alice")))) /\
  (exists s1 tr1 tr2,
     SecureStore.resolve_alias "carol" s = (s1, tr1, Ok None) /\
     SecureStore.resolve_alias "carol" s1 = (s1, tr2, Ok None)).
Proof.
  intros s. split.
  - exact (proj1 (resolve_alias_repeatable "alice") s (Scenarios.wallet s) eq_refl).
  - exact (proj2 (resolve_alias_repeatable "carol") Scenarios.alias_history eq_refl).
Defined.

(* ------------------------------------------------------------------ *)
(** ** The service endpoint of [tsp_provision_did] *)

(** Lemmas on Python's [str.replace] with the patterns [%7x]. *)
Module ReplaceFacts.
Import Provision.

Lemma prefix_pct (x c : ascii) (t : string) :
  String.prefix (pct x) (String c t) = true ->
  exists t', c = "%"%char /\ t = String "7" (String x t').
Proof.
  intros H. cbn [String.prefix pct] in H.
  destruct (ascii_dec "%" c) as [<-|]; [|discriminate H].
  destruct t as [|d t]; [discriminate H|]. cbn [String.prefix] in H.
  destruct (ascii_dec "7" d) as [<-|]; [|discriminate H].
  destruct t as [|e t]; [discriminate H|]. cbn [String.prefix] in H.
  destruct (ascii_dec x e) as [<-|]; [|discriminate H].
  eauto.
Qed.

Lemma prefix_pct_self (x : ascii) (t : string) :
  String.prefix (pct x) (String "%" (String "7" (String x t))) = true.
Proof.
  cbn [String.prefix pct].
  destruct (ascii_dec "%" "%"); [|congruence].
  destruct (ascii_dec "7" "7"); [|congruence].
  destruct (ascii_dec x x); [destruct t; reflexivity|congruence].
Qed.

Lemma rf_hit (x y : ascii) (t : string) :
  replace_from (pct x) (String y EmptyString) 0 (String "%" (String "7" (String x t))) =
  String y (replace_from (pct x) (String y EmptyString) 0 t).
Proof.
  cbn [replace_from]. rewrite prefix_pct_self. reflexivity.
Qed.

Lemma rf_miss (x y c : ascii) (t : string) :
  String.prefix (pct x) (String c t) = false ->
  replace_from (pct x) (String y EmptyString) 0 (String c t) =
  String c (replace_from (pct x) (String y EmptyString) 0 t).
Proof.
  intros H. cbn [replace_from]. rewrite H. reflexivity.
Qed.

(** The three ways a scan step can go. *)
Lemma rf_cases (x y : ascii) (s : string) :
  s = EmptyString \/
  (exists t, s = String "%" (String "7" (String x t)) /\
     replace_from (pct x) (String y EmptyString) 0 s =
     String y (replace_from (pct x) (String y EmptyString) 0 t)) \/
  (exists c t, s = String c t /\ String.prefix (pct x) s = false /\
     replace_from (pct x) (String y EmptyString) 0 s =
     String c (replace_from (pct x) (String y EmptyString) 0 t)).
Proof.
  destruct s as [|c t]; [left; reflexivity|right].
  destruct (String.prefix (pct x) (String c t)) eqn:E.
  - left. destruct (prefix_pct x c t E) as (t' & -> & ->).
    exists t'. split; [reflexivity|apply rf_hit].
  - right. exists c, t. split; [reflexivity|]. split; [reflexivity|]. apply rf_miss, E.
Qed.

Lemma contains_cons (p : string) (c : ascii) (t : string) :
  py_contains p (String c t) = String.prefix p (String c t) || py_contains p t.
Proof. reflexivity. Qed.

Lemma contains_prefix (p : string) (c : ascii) (t : string) :
  String.prefix p (String c t) = true -> py_contains p (String c t) = true.
Proof. intros H. rewrite contains_cons, H. reflexivity. Qed.

Lemma contains_tail (p : string) (c : ascii) (t : string) :
  py_contains p (String c t) = false -> py_contains p t = false.
Proof. rewrite contains_cons. intros H. apply orb_false_iff in H. apply H. Qed.

Lemma prefix_pct_other (z y : ascii) (r : string) :
  y <> "%"%char -> String.prefix (pct z) (String y r) = false.
Proof.
  intros Hy. cbn [String.prefix pct]. destruct (ascii_dec "%" y); [congruence|reflexivity].
Qed.

(** Replacing [%7x] by a character [y] creates no occurrence of [%7z]:
    every occurrence of [%7z] in the result is one of the input's, and
    none is left when [z = x]. *)
Lemma rf_no_occurrence (x y z : ascii) :
  y <> "%"%char -> y <> "7"%char -> y <> z ->
  forall s, (z = x \/ py_contains (pct z) s = false) ->
  py_contains (pct z) (replace_from (pct x) (String y EmptyString) 0 s) = false.
Proof.
  intros Hy1 Hy2 Hy3 s.
  induction s as [s IH] using (induction_ltof1 _ String.length).
  intros Hs.
  destruct (rf_cases x y s) as [->|[(t & -> & ->)|(c & t & -> & Hp & ->)]].
  - reflexivity.
  - rewrite contains_cons, prefix_pct_other by exact Hy1. cbn [orb].
    apply IH; [unfold ltof; cbn; lia|].
    destruct Hs as [Hs|Hs]; [left; exact Hs|right].
    do 3 apply contains_tail in Hs. exact Hs.
  - rewrite contains_cons. apply orb_false_iff. split.
    + destruct (String.prefix (pct z) (String c _)) eqn:E; [|reflexivity].
      exfalso.
      destruct (prefix_pct z c _ E) as (r & -> & Hr).
      destruct (rf_cases x y t) as [->|[(t2 & -> & Ht)|(d & t2 & -> & _ & Ht)]].
      * discriminate.
      * rewrite Ht in Hr. injection Hr as Hr. congruence.
      * rewrite Ht in Hr. injection Hr as -> Hr.
        destruct (rf_cases x y t2) as [->|[(t3 & -> & Ht2)|(e & t3 & -> & _ & Ht2)]].
        -- discriminate.
        -- rewrite Ht2 in Hr. injection Hr as Hr. congruence.
        -- rewrite Ht2 in Hr. injection Hr as -> _.
           destruct Hs as [<-|Hs].
           ++ rewrite prefix_pct_self in Hp. discriminate.
           ++ rewrite contains_prefix in Hs by apply prefix_pct_self. discriminate.
    + apply IH; [unfold ltof; cbn; lia|].
      destruct Hs as [Hs|Hs]; [left; exact Hs|right].
      apply contains_tail in Hs. exact Hs.
Qed.

(** [s.replace(old, new)] leaves [s] unchanged when [old] does not
    occur in it. *)
Lemma replace_absent (s old new : string) :
  py_contains old s = false -> py_replace s old new = s.
Proof.
  unfold py_replace. destruct (String.eqb_spec old "") as [->|Hne].
  - destruct s; cbn; [discriminate|]. destruct s; discriminate.
  - induction s as [|c t IH]; intros H; [reflexivity|].
    cbn [replace_from]. rewrite contains_cons in H. apply orb_false_iff in H.
    destruct H as [H1 H2]. rewrite H1, IH by exact H2. reflexivity.
Qed.

(** [s.replace(c, '%7x')] for a single character [c]. *)
Lemma enc_cons (c0 x c : ascii) (t : string) :
  replace_from (String c0 EmptyString) (pct x) 0 (String c t) =
  if ascii_dec c0 c
  then String "%" (String "7" (String x (replace_from (String c0 EmptyString) (pct x) 0 t)))
  else String c (replace_from (String c0 EmptyString) (pct x) 0 t).
Proof.
  cbn [replace_from String.prefix String.length].
  destruct (ascii_dec c0 c); destruct t; reflexivity.
Qed.

(** Decoding [%7x] back to [c0] undoes the encoding of [c0] as [%7x],
    on a string with no [%7x] of its own. *)
Lemma decode_encode (c0 x : ascii) :
  x <> "%"%char ->
  forall s, py_contains (pct x) s = false ->
  replace_from (pct x) (String c0 EmptyString) 0
    (replace_from (String c0 EmptyString) (pct x) 0 s) = s.
Proof.
  intros Hx s. induction s as [|c t IH]; intros Hs; [reflexivity|].
  pose proof (contains_tail _ _ _ Hs) as Ht.
  rewrite enc_cons. destruct (ascii_dec c0 c) as [<-|Hc].
  - rewrite rf_hit, IH by exact Ht. reflexivity.
  - rewrite rf_miss; [rewrite IH by exact Ht; reflexivity|].
    destruct (String.prefix (pct x) _) eqn:E; [|reflexivity].
    exfalso. destruct (prefix_pct x c _ E) as (r & -> & Hr).
    destruct t as [|d t2]; [discriminate|].
    rewrite enc_cons in Hr. destruct (ascii_dec c0 d); [discriminate|].
    injection Hr as -> Hr.
    destruct t2 as [|e t3]; [discriminate|].
    rewrite enc_cons in Hr. destruct (ascii_dec c0 e).
    + injection Hr as Hr. congruence.
    + injection Hr as -> _.
      rewrite contains_prefix in Hs by apply prefix_pct_self. discriminate.
Qed.

(** Encoding [c0] as [%7x] creates no [%7z] for another [z]. *)
Lemma encode_no_occurrence (c0 x z : ascii) :
  x <> "%"%char -> z <> "%"%char -> z <> x ->
  forall s, py_contains (pct z) s = false ->
  py_contains (pct z) (replace_from (String c0 EmptyString) (pct x) 0 s) = false.
Proof.
  intros Hx Hz Hzx s. induction s as [|c t IH]; intros Hs; [reflexivity|].
  pose proof (contains_tail _ _ _ Hs) as Ht.
  rewrite enc_cons. destruct (ascii_dec c0 c) as [<-|Hc].
  - rewrite !contains_cons, IH by exact Ht.
    cbn [String.prefix pct orb].
    destruct (ascii_dec "%" "%"); [|congruence].
    destruct (ascii_dec "7" "7"); [|congruence].
    destruct (ascii_dec z x); [congruence|].
    destruct (ascii_dec "%" "7"); [discriminate|].
    destruct (ascii_dec "%" x); [congruence|]. reflexivity.
  - rewrite contains_cons, IH by exact Ht. rewrite orb_false_r.
    destruct (String.prefix (pct z) _) eqn:E; [|reflexivity].
    exfalso. destruct (prefix_pct z c _ E) as (r & -> & Hr).
    destruct t as [|d t2]; [discriminate|].
    rewrite enc_cons in Hr. destruct (ascii_dec c0 d); [discriminate|].
    injection Hr as -> Hr.
    destruct t2 as [|e t3]; [discriminate|].
    rewrite enc_cons in Hr. destruct (ascii_dec c0 e).
    + injection Hr as Hr. congruence.
    + injection Hr as -> _.
      rewrite contains_prefix in Hs by apply prefix_pct_self. discriminate.
Qed.
End ReplaceFacts.

(** X7: whatever the service endpoint [e], after
    [e.replace('%7B', '{').replace('%7D', '}')] it contains neither
    [%7B] nor [%7D]: the first replacement creates no new [%7B], and the
    second creates neither a [%7D] nor a [%7B]. *)
Theorem unescape_braces_leaves_no_escape (e : string) :
  Provision.py_contains "%7B" (Provision.unescape_braces e) = false /\
  Provision.py_contains "%7D" (Provision.unescape_braces e) = false.
Proof.
  unfold Provision.unescape_braces, Provision.py_replace. cbn [String.eqb].
  change "%7B" with (Provision.pct "B"). change "%7D" with (Provision.pct "D").
  change "{" with (String "{" EmptyString). change "}" with (String "}" EmptyString).
  split.
  - apply ReplaceFacts.rf_no_occurrence; try discriminate.
    right. apply ReplaceFacts.rf_no_occurrence; try discriminate. left; reflexivity.
  - apply ReplaceFacts.rf_no_occurrence; try discriminate. left; reflexivity.
Qed.

(** X6: an endpoint containing neither [%7B] nor [%7D] is left
    unchanged by the rewrite. *)
Theorem unescape_braces_unchanged (e : string) :
  Provision.py_contains "%7B" e = false -> Provision.py_contains "%7D" e = false ->
  Provision.unescape_braces e = e.
Proof.
  intros HB HD. unfold Provision.unescape_braces.
  rewrite (ReplaceFacts.replace_absent e) by exact HB.
  apply ReplaceFacts.replace_absent, HD.
Qed.

(** X8: the rewrite undoes the percent-encoding of braces: encoding
    every [}] as [%7D] and every [{] as [%7B], then rewriting, gives back
    any endpoint that had no [%7B] or [%7D] of its own. *)
Theorem unescape_braces_inverts_escape (e : string) :
  Provision.py_contains "%7B" e = false -> Provision.py_contains "%7D" e = false ->
  Provision.unescape_braces
    (Provision.py_replace (Provision.py_replace e "}" "%7D") "{" "%7B") = e.
Proof.
  intros HB HD.
  unfold Provision.unescape_braces, Provision.py_replace. cbn [String.eqb].
  change "%7B" with (Provision.pct "B") in *. change "%7D" with (Provision.pct "D") in *.
  change "{" with (String "{" EmptyString). change "}" with (String "}" EmptyString).
  rewrite ReplaceFacts.decode_encode; [|discriminate|].
  - apply ReplaceFacts.decode_encode; [discriminate|exact HD].
  - apply ReplaceFacts.encode_no_occurrence; [discriminate|discriminate|discriminate|exact HB].
Qed.

(** Lemmas on dicts. *)
Module JsonFacts.
Import Provision.

Lemma dict_get_set_eq (k : string) (v : Json) (d : list (string * Json)) :
  dict_get k (dict_set k v d) = Some v.
Proof.
  induction d as [|[k' v'] d IH]; cbn; [rewrite String.eqb_refl; reflexivity|].
  destruct (String.eqb_spec k k') as [->|Hne]; cbn.
  - rewrite String.eqb_refl. reflexivity.
  - apply String.eqb_neq in Hne. rewrite Hne. exact IH.
Qed.

Lemma dict_get_set_ne (k k' : string) (v : Json) (d : list (string * Json)) :
  k' <> k -> dict_get k' (dict_set k v d) = dict_get k' d.
Proof.
  intros Hk. induction d as [|[k1 v1] d IH]; cbn.
  - apply String.eqb_neq in Hk. rewrite Hk. reflexivity.
  - destruct (String.eqb_spec k k1) as [->|Hne]; cbn.
    + apply String.eqb_neq in Hk. rewrite Hk. reflexivity.
    + rewrite IH. reflexivity.
Qed.

Lemma dict_set_keys (k : string) (v : Json) (d : list (string * Json)) :
  dict_get k d <> None -> map fst (dict_set k v d) = map fst d.
Proof.
  induction d as [|[k1 v1] d IH]; cbn; [congruence|].
  destruct (String.eqb k k1); cbn; [reflexivity|].
  intros H. rewrite IH by exact H. reflexivity.
Qed.

Lemma unescape_shape (d e : list (string * Json)) (rest : list Json) (s : string) :
  dict_get "service" d = Some (JList (JDict e :: rest)) ->
  dict_get "serviceEndpoint" e = Some (JStr s) ->
  unescape_service_endpoint (JDict d) =
  Ret (JDict (dict_set "service"
    (JList (JDict (dict_set "serviceEndpoint" (JStr (unescape_braces s)) e) :: rest)) d)).
Proof.
  intros H1 H2. unfold unescape_service_endpoint, set_service_endpoint.
  cbn. rewrite H1. cbn. rewrite H2. reflexivity.
Qed.
End JsonFacts.

(** X9: line 21 of [tsp_provision_did] raises no exception exactly when
    the genesis document is a dict whose ['service'] is a non-empty list
    whose first element is a dict holding a string ['serviceEndpoint']. *)
Theorem unescape_service_endpoint_succeeds (doc : Provision.Json) :
  (exists doc', Provision.unescape_service_endpoint doc = Provision.Ret doc') <->
  exists d e rest s, doc = Provision.JDict d /\
    Provision.dict_get "service" d = Some (Provision.JList (Provision.JDict e :: rest)) /\
    Provision.dict_get "serviceEndpoint" e = Some (Provision.JStr s).
Proof.
  split.
  - intros [doc' H]. unfold Provision.unescape_service_endpoint in H.
    destruct doc as [| | | |l|d]; cbn in H; try discriminate H.
    destruct (Provision.dict_get "service" d) as [svc|] eqn:E1; cbn in H; [|discriminate H].
    destruct svc as [| | |str|l|d1]; cbn in H; try discriminate H.
    + destruct str; cbn in H; discriminate H.
    + destruct l as [|first rest]; cbn in H; [discriminate H|].
      destruct first as [| | | |l1|e]; cbn in H; try discriminate H.
      destruct (Provision.dict_get "serviceEndpoint" e) as [ep|] eqn:E2; cbn in H;
          [|discriminate H].
      destruct ep as [| | |s| |]; cbn in H; try discriminate H.
      exists d, e, rest, s. auto.
  - intros (d & e & rest & s & -> & H1 & H2). eexists.
    apply JsonFacts.unescape_shape; eassumption.
Qed.

(** X10: on such a document, line 21 changes only the first service's
    ['serviceEndpoint'], to its rewritten value: every other key of the
    document and of the service keeps its value, the other services are
    untouched, and no key is added or reordered. *)
Theorem unescape_service_endpoint_effect (d e : list (string * Provision.Json))
    (rest : list Provision.Json) (s : string) :
  Provision.dict_get "service" d = Some (Provision.JList (Provision.JDict e :: rest)) ->
  Provision.dict_get "serviceEndpoint" e = Some (Provision.JStr s) ->
  exists d' e',
    Provision.unescape_service_endpoint (Provision.JDict d) = Provision.Ret (Provision.JDict d') /\
    Provision.dict_get "service" d' = Some (Provision.JList (Provision.JDict e' :: rest)) /\
    Provision.dict_get "serviceEndpoint" e' = Some (Provision.JStr (Provision.unescape_braces s)) /\
    (forall k, k <> "service" -> Provision.dict_get k d' = Provision.dict_get k d) /\
    (forall k, k <> "serviceEndpoint" -> Provision.dict_get k e' = Provision.dict_get k e) /\
    map fst d' = map fst d /\ map fst e' = map fst e.
Proof.
  intros H1 H2. do 2 eexists. split; [apply JsonFacts.unescape_shape; eassumption|].
  split; [apply JsonFacts.dict_get_set_eq|].
  split; [apply JsonFacts.dict_get_set_eq|].
  split; [intros k Hk; apply JsonFacts.dict_get_set_ne; exact Hk|].
  split; [intros k Hk; apply JsonFacts.dict_get_set_ne; exact Hk|].
  split; apply JsonFacts.dict_set_keys; congruence.
Qed.

Lemma unescape_service_endpoint_effect_witness :
  let e := [("type", Provision.JStr "TSPTransport");
            ("serviceEndpoint", Provision.JStr "https://tsp/%7BSCID%7D")] in
  let d := [("id", Provision.JStr "did:webvh:{SCID}:example.org");
            ("service", Provision.JList [Provision.JDict e])] in
  exists d' e',
    Provision.unescape_service_endpoint (Provision.JDict d) = Provision.Ret (Provision.JDict d') /\
    Provision.dict_get "service" d' = Some (Provision.JList [Provision.JDict e']) /\
    Provision.dict_get "serviceEndpoint" e' =
      Some (Provision.JStr (Provision.unescape_braces "https://tsp/%7BSCID%7D")) /\
    (forall k, k <> "service" -> Provision.dict_get k d' = Provision.dict_get k d) /\
    (forall k, k <> "serviceEndpoint" -> Provision.dict_get k e' = Provision.dict_get k e) /\
    map fst d' = map fst d /\ map fst e' = map fst e.
Proof.
  intros e d. exact (unescape_service_endpoint_effect d e [] _ eq_refl eq_refl).
Defined.

(** X11: line 21 raises [KeyError('service')] on a document without
    services, [IndexError] on an empty service list,
    [KeyError('serviceEndpoint')] when the first service has no endpoint,
    and [AttributeError] when that endpoint is not a string. *)
Theorem unescape_service_endpoint_errors (d : list (string * Provision.Json)) :
  (Provision.dict_get "service" d = None ->
   Provision.unescape_service_endpoint (Provision.JDict d) =
     Provision.Throw (Provision.KeyError "service")) /\
  (Provision.dict_get "service" d = Some (Provision.JList []) ->
   Provision.unescape_service_endpoint (Provision.JDict d) =
     Provision.Throw (Provision.IndexError "list index out of range")) /\
  (forall e rest,
   Provision.dict_get "service" d = Some (Provision.JList (Provision.JDict e :: rest)) ->
   Provision.dict_get "serviceEndpoint" e = None ->
   Provision.unescape_service_endpoint (Provision.JDict d) =
     Provision.Throw (Provision.KeyError "serviceEndpoint")) /\
  (forall e rest v,
   Provision.dict_get "service" d = Some (Provision.JList (Provision.JDict e :: rest)) ->
   Provision.dict_get "serviceEndpoint" e = Some v ->
   (forall s, v <> Provision.JStr s) ->
   Provision.unescape_service_endpoint (Provision.JDict d) =
     Provision.Throw (Provision.AttributeError
       ("'" ++ Provision.type_name v ++ "' object has no attribute 'replace'"))).
Proof.
  unfold Provision.unescape_service_endpoint. cbn [Provision.getitem_str].
  split; [intros H; rewrite H; reflexivity|].
  split; [intros H; rewrite H; reflexivity|].
  split; [intros e rest H1 H2; rewrite H1; cbn; rewrite H2; reflexivity|].
  intros e rest v H1 H2 Hv. rewrite H1. cbn. rewrite H2.
  destruct v; cbn; try reflexivity. exfalso. eapply Hv. reflexivity.
Qed.

Lemma unescape_service_endpoint_errors_witness :
  Provision.unescape_service_endpoint
    (Provision.JDict [("service", Provision.JList [])]) =
    Provision.Throw (Provision.IndexError "list index out of range").
Proof.
  exact (proj1 (proj2 (unescape_service_endpoint_errors
           [("service", Provision.JList [])])) eq_refl).
Defined.

(* ------------------------------------------------------------------ *)
(** ** Decoding the native results in the three bindings *)

(** X1: every dataclass [from_flat] returns carries the [sender] and
    [receiver] of the flat native result it was built from. *)
Theorem from_flat_keeps_sender_receiver (f : FlatReceivedTspMessage) (msg : ReceivedTspMessage) :
  from_flat f = Ok msg -> msg_sender msg = sender f /\ msg_receiver msg = receiver f.
Proof.
  unfold from_flat. intros H.
  destruct (variant f); try destruct (message f); try discriminate H;
    injection H as <-; split; reflexivity.
Qed.

Lemma from_flat_keeps_sender_receiver_witness :
  from_flat (Double.flat_of ReceivedTspMessageVariant.AcceptRelationship) =
    Ok (AcceptRelationship "did:peer:alice" (Some "did:peer:bob") None) /\
  msg_sender (AcceptRelationship "did:peer:alice" (Some "did:peer:bob") None) = "did:peer:alice" /\
  msg_receiver (AcceptRelationship "did:peer:alice" (Some "did:peer:bob") None) = Some "did:peer:bob".
Proof.
  split; [reflexivity|].
  exact (from_flat_keeps_sender_receiver
           (Double.flat_of ReceivedTspMessageVariant.AcceptRelationship) _ eq_refl).
Defined.

(** X2: every dataclass of [tsp.py] is what [from_flat] builds from the
    flat record carrying its fields: each field is read from the flat
    field of the same name. *)
Theorem from_flat_to_flat (msg : ReceivedTspMessage) : from_flat (to_flat msg) = Ok msg.
Proof. destruct msg; reflexivity. Qed.

(** X3: the [from_flat] of the older binding [src/tsp_python/tsp.py]
    decodes every flat result as the current one does, with the
    [receiver] left out, and raises the same exception whenever the
    current one raises. *)
Theorem legacy_from_flat_drops_receiver (f : FlatReceivedTspMessage) :
  Legacy.from_flat f = Legacy.res_map legacy_of_current (from_flat f).
Proof.
  unfold Legacy.from_flat, from_flat.
  destruct (variant f); try destruct (message f); reflexivity.
Qed.

(** X4: in the asynchronous example, a generic message arriving on the
    stream makes [__anext__] raise a [TypeError]: [from_flat] calls the
    one-field dataclass [AcceptRelationship] with four arguments. *)
Theorem async_anext_generic_type_error (f : AsyncExample.FlatReceivedTspMessage) :
  AsyncExample.variant f = ReceivedTspMessageVariant.GenericMessage ->
  AsyncExample.anext (Some f) =
    AsyncExample.Failed (TypeError
      "AcceptRelationship.__init__() takes 2 positional arguments but 5 were given").
Proof.
  intros H. unfold AsyncExample.anext, AsyncExample.from_flat. rewrite H. reflexivity.
Qed.

Lemma async_anext_generic_type_error_witness :
  let f := AsyncExample.mkFlat ReceivedTspMessageVariant.GenericMessage
    "did:web:did.tsp-test.org:user:alice" (Some (String.list_byte_of_string "extra"))
    (Some (String.list_byte_of_string "hello world")) "SignedAndEncrypted" in
  AsyncExample.anext (Some f) =
    AsyncExample.Failed (TypeError
      "AcceptRelationship.__init__() takes 2 positional arguments but 5 were given").
Proof.
  intros f. exact (async_anext_generic_type_error f eq_refl).
Defined.

(** X5: the asynchronous example's stream only ever yields an
    [AcceptRelationship] or a [CancelRelationship], with the sender of
    the native message; in particular it never yields a
    [GenericMessage]. *)
Theorem async_anext_yields (r : option AsyncExample.FlatReceivedTspMessage)
    (m : AsyncExample.ReceivedTspMessage) :
  AsyncExample.anext r = AsyncExample.Yield m ->
  exists f, r = Some f /\
    ((AsyncExample.variant f = ReceivedTspMessageVariant.AcceptRelationship /\
      m = AsyncExample.AcceptRelationship (AsyncExample.sender f)) \/
     (AsyncExample.variant f = ReceivedTspMessageVariant.CancelRelationship /\
      m = AsyncExample.CancelRelationship (AsyncExample.sender f))).
Proof.
  destruct r as [f|]; cbn; [|discriminate]. intros H. exists f. split; [reflexivity|].
  unfold AsyncExample.from_flat in H.
  destruct (AsyncExample.variant f); cbn in H; try discriminate H;
    injection H as <-; auto.
Qed.

Lemma async_anext_yields_witness :
  let f := AsyncExample.mkFlat ReceivedTspMessageVariant.CancelRelationship
             "did:web:did.tsp-test.org:user:alice" None None "Signed" in
  exists g, Some f = Some g /\
    ((AsyncExample.variant g = ReceivedTspMessageVariant.AcceptRelationship /\
      AsyncExample.CancelRelationship "did:web:did.tsp-test.org:user:alice" =
        AsyncExample.AcceptRelationship (AsyncExample.sender g)) \/
     (AsyncExample.variant g = ReceivedTspMessageVariant.CancelRelationship /\
      AsyncExample.CancelRelationship "did:web:did.tsp-test.org:user:alice" =
        AsyncExample.CancelRelationship (AsyncExample.sender g))).
Proof.
  intros f. exact (async_anext_yields (Some f) _ eq_refl).
Defined.

Lemma unescape_braces_inverts_escape_witness :
  Provision.py_contains "%7B" "https://tsp/{SCID}/{x}" = false /\
  Provision.py_contains "%7D" "https://tsp/{SCID}/{x}" = false /\
  Provision.unescape_braces
    (Provision.py_replace (Provision.py_replace "https://tsp/{SCID}/{x}" "}" "%7D") "{" "%7B") =
    "https://tsp/{SCID}/{x}".
Proof.
  split; [reflexivity|]. split; [reflexivity|].
  exact (unescape_braces_inverts_escape "https://tsp/{SCID}/{x}" eq_refl eq_refl).
Defined.

Lemma unescape_braces_unchanged_witness :
  Provision.py_contains "%7B" "tcp://127.0.0.1:1337" = false /\
  Provision.py_contains "%7D" "tcp://127.0.0.1:1337" = false /\
  Provision.unescape_braces "tcp://127.0.0.1:1337" = "tcp://127.0.0.1:1337".
Proof.
  split; [reflexivity|]. split; [reflexivity|].
  exact (unescape_braces_unchanged "tcp://127.0.0.1:1337" eq_refl eq_refl).
Defined.
